(** * Round-robin host selection ("lucky user")

    A shallow embedding of [getLuckyUser] and of the three stages it runs
    (weight shortfall, priority, least recently booked), followed by the
    properties of the host-selection specification.

    Conventions of the embedding.
    - Integer columns ([id], [priority], [weight], [weightAdjustment],
      [userId]) are [Z]; a nullable or optional field is an [option].
    - A [Date] is its time value, the number of milliseconds since the epoch,
      as a [Z]; [new Date(0)] is [0].  Relational operators on dates compare
      time values.
    - A JavaScript number that is the result of arithmetic is a [num]: a
      rational, an infinity or NaN.  Every finite result of an addition, a
      multiplication or a division is rounded to the nearest double (53
      significant bits, ties to even), as IEEE 754 arithmetic does.  The
      exponent range is not modelled: the integer columns are 32-bit, which
      keeps every result of the program between 2^-1022 and 2^1024 in
      magnitude.  Sums of integers are exact and are computed in [Z].  Zero
      carries no sign (the only divisor of the program is a sum that starts
      at [0], hence never [-0]).
    - An object used as a dictionary from user ids to dates is a [gmap Z Z].
    - [Array.prototype.sort] is an insertion sort; the comparator threads the
      number of random draws made so far.
    - The database, the booking repository and [Math.random] are the
      collaborators of the program; they are gathered in [Collaborators]. *)

From Stdlib Require Import ZArith QArith Qround Qpower Qabs.
From Stdlib Require Import String List Bool Lia Lqa Permutation Sorted.
From stdpp Require Import gmap.
Import ListNotations.

Local Open Scope string_scope.
Local Open Scope Z_scope.

(** ** JavaScript numbers *)

Inductive num : Type :=
| NaN
| Inf (negative : bool)
| Fin (q : Q).

Definition of_Z (z : Z) : num := Fin (inject_Z z).

(** The binary order of magnitude of a non-zero rational: the [m] with
    [2^m <= |q| < 2^(m+1)]. *)
Definition Qmag (q : Q) : Z :=
  let k := Z.log2 (Z.abs (Qnum q)) - Z.log2 (Zpos (Qden q)) in
  if Qle_bool (Qpower 2 k) (Qabs q) then k else k - 1.

(** Rounding to the nearest integer, ties to the even one. *)
Definition Qround_even (x : Q) : Z :=
  let f := Qfloor x in
  match Qcompare (x - inject_Z f) (1 # 2) with
  | Lt => f
  | Gt => f + 1
  | Eq => if Z.even f then f else f + 1
  end.

(** Rounding to the nearest double: the nearest multiple of [2^(m-52)] for a
    rational of magnitude [m], ties to the even multiple. *)
Definition round_double (q : Q) : Q :=
  if Qeq_bool q 0 then 0%Q
  else
    let e := Qmag q - 52 in
    (inject_Z (Qround_even (q / Qpower 2 e)) * Qpower 2 e)%Q.

Definition num_sign (x : num) : Z :=
  match x with
  | NaN => 0
  | Inf negative => if negative then -1 else 1
  | Fin q => Z.sgn (Qnum q)
  end.

Definition num_neg (x : num) : num :=
  match x with
  | NaN => NaN
  | Inf negative => Inf (negb negative)
  | Fin q => Fin (- q)
  end.

Definition num_add (x y : num) : num :=
  match x, y with
  | NaN, _ | _, NaN => NaN
  | Inf a, Inf b => if Bool.eqb a b then Inf a else NaN
  | Inf a, Fin _ => Inf a
  | Fin _, Inf b => Inf b
  | Fin p, Fin q => Fin (round_double (p + q))
  end.

Definition num_sub (x y : num) : num := num_add x (num_neg y).

Definition num_mul (x y : num) : num :=
  match x, y with
  | NaN, _ | _, NaN => NaN
  | Fin p, Fin q => Fin (round_double (p * q))
  | _, _ =>
      if num_sign x * num_sign y =? 0 then NaN
      else Inf (num_sign x * num_sign y <? 0)
  end.

Definition num_div (x y : num) : num :=
  match x, y with
  | NaN, _ | _, NaN => NaN
  | Inf _, Inf _ => NaN
  | Inf a, Fin q => Inf (xorb a (Z.sgn (Qnum q) <? 0))
  | Fin _, Inf _ => Fin 0
  | Fin p, Fin q =>
      if Qeq_bool q 0 then
        if Qeq_bool p 0 then NaN else Inf (Z.sgn (Qnum p) <? 0)
      else Fin (round_double (p / q))
  end.

(** [x === y] on numbers. *)
Definition num_eqb (x y : num) : bool :=
  match x, y with
  | Inf a, Inf b => Bool.eqb a b
  | Fin p, Fin q => Qeq_bool p q
  | _, _ => false
  end.

Definition num_max (x y : num) : num :=
  match x, y with
  | NaN, _ | _, NaN => NaN
  | Inf false, _ | _, Inf false => Inf false
  | Inf true, _ => y
  | _, Inf true => x
  | Fin p, Fin q => if Qle_bool p q then Fin q else Fin p
  end.

(** [Math.max(...l)]: [-Infinity] for no argument, NaN as soon as one
    argument is NaN. *)
Definition Math_max (l : list num) : num := fold_left num_max l (Inf true).

(** [o ?? d] *)
Definition nullish {A : Type} (o : option A) (d : A) : A :=
  match o with Some v => v | None => d end.

Infix "??" := nullish (at level 45, left associativity).

(** ** Data model *)

Module User.
(** [PartialUser] extended with the optional fields [getLuckyUser] reads. *)
Record t : Type := mk {
  id : Z;
  email : string;
  priority : option Z;
  weight : option Z;
  weightAdjustment : option Z
}.
End User.

Module Attendee.
Record t : Type := mk { email : option string }.
End Attendee.

Module Booking.
(** [PartialBooking]. *)
Record t : Type := mk {
  id : Z;
  createdAt : Z;
  userId : option Z;
  status : string;
  attendees : list Attendee.t
}.
End Booking.

Module EventType.
Record t : Type := mk { id : Z; isRRWeightsEnabled : bool }.
End EventType.

Module PartialUser.
Record t : Type := mk { id : Z; email : string }.
End PartialUser.

Module Host.
(** An entry of [allRRHosts]. *)
Record t : Type := mk {
  user : PartialUser.t;
  weight : option Z;
  weightAdjustment : option Z
}.
End Host.

Module Organizer.
(** A row of the [prisma.user.findMany] selection: the user id and the
    selected bookings (at most the latest one, [take: 1]), each given by
    its [createdAt]. *)
Record t : Type := mk { id : Z; bookings : list Z }.
End Organizer.

Record GetLuckyUserParams : Type := mkParams {
  availableUsers : list User.t;
  eventType : EventType.t;
  allRRHosts : list Host.t
}.

(** What the program obtains from outside: the booking repository, the user
    table queried through Prisma, and the successive outcomes of
    [Math.random() > 0.5]. *)
Record Collaborators : Type := mkCollaborators {
  getAllBookingsOfUsers : Z -> list PartialUser.t -> bool -> list Booking.t;
  user_findMany : list Z -> Z -> list Organizer.t;
  random_gt_half : nat -> bool
}.

(** Outcome of a call: a returned value or a thrown error. *)
Inductive completion (A : Type) : Type :=
| Return (v : A)
| Throw (message : string).
Arguments Return {A} v.
Arguments Throw {A} message.

(** ** Priority filter *)

Definition getUsersWithHighestPriority (availableUsers : list User.t) : list User.t :=
  let highestPriority :=
    Math_max (map (fun user => of_Z (User.priority user ?? 2)) availableUsers) in
  List.filter
    (fun user =>
       match User.priority user with
       | Some p => num_eqb (of_Z p) highestPriority
       | None => false
       end
       || (match User.priority user with None => true | Some _ => false end
           && num_eqb highestPriority (of_Z 2)))
    availableUsers.

(** ** Weight-shortfall filter *)

Definition attendee_has_email (e : string) (a : Attendee.t) : bool :=
  match Attendee.email a with
  | Some s => String.eqb s e
  | None => false
  end.

Definition userId_is (b : Booking.t) (i : Z) : bool :=
  match Booking.userId b with
  | Some o => o =? i
  | None => false
  end.

Definition allWeightAdjustments (hosts : list Host.t) : Z :=
  fold_left (fun sum host => sum + (Host.weightAdjustment host ?? 0)) hosts 0.

Definition totalWeight (hosts : list Host.t) : Z :=
  fold_left (fun sum host => sum + (Host.weight host ?? 100)) hosts 0.

Definition userBookings (allBookings : list Booking.t) (user : User.t) : list Booking.t :=
  List.filter
    (fun booking =>
       userId_is booking (User.id user)
       || existsb (attendee_has_email (User.email user)) (Booking.attendees booking))
    allBookings.

Definition bookingShortfall (hosts : list Host.t) (allBookings : list Booking.t)
    (user : User.t) : num :=
  let targetPercentage :=
    num_div (of_Z (User.weight user ?? 100)) (of_Z (totalWeight hosts)) in
  let targetNumberOfBookings :=
    num_mul (of_Z (Z.of_nat (length allBookings) + allWeightAdjustments hosts))
            targetPercentage in
  num_sub targetNumberOfBookings
    (of_Z (Z.of_nat (length (userBookings allBookings user))
           + (User.weightAdjustment user ?? 0))).

Definition getUsersBasedOnWeights (p : GetLuckyUserParams)
    (allBookings : list Booking.t) : list User.t :=
  let usersWithBookingShortfalls :=
    map (fun user => (user, bookingShortfall (allRRHosts p) allBookings user))
        (availableUsers p) in
  let maxShortfall := Math_max (map snd usersWithBookingShortfalls) in
  let userIdsWithMaxShortfall : gset Z :=
    list_to_set
      (map (fun us => User.id (fst us))
           (List.filter (fun us => num_eqb (snd us) maxShortfall)
                        usersWithBookingShortfalls)) in
  List.filter (fun user => bool_decide (User.id user ∈ userIdsWithMaxShortfall))
              (availableUsers p).

(** ** Recency tiebreak *)

(** [a > b] and [a < b] on dates looked up in a dictionary: a missing entry is
    [undefined], which compares false with everything. *)
Definition date_gt (a b : option Z) : bool :=
  match a, b with
  | Some x, Some y => y <? x
  | _, _ => false
  end.

Definition date_lt (a b : option Z) : bool := date_gt b a.

Definition organizerIdAndAtCreatedPair
    (organizersWithLastCreated : list Organizer.t) : gmap Z Z :=
  fold_left
    (fun keyValuePair user =>
       <[Organizer.id user :=
           match Organizer.bookings user with
           | createdAt :: _ => createdAt
           | [] => 0
           end]> keyValuePair)
    organizersWithLastCreated ∅.

(** The callback of [availableUsers.forEach] for one booking. *)
Definition attendeeVisit (organizer : gmap Z Z) (booking : Booking.t)
    (aggregate : gmap Z Z) (user : User.t) : gmap Z Z :=
  if bool_decide (is_Some (aggregate !! User.id user)) then aggregate
  else if negb (existsb (attendee_has_email (User.email user))
                        (Booking.attendees booking)) then aggregate
  else if date_gt (organizer !! User.id user) (Some (Booking.createdAt booking))
       then aggregate
  else <[User.id user := Booking.createdAt booking]> aggregate.

(** The body of the reducer over [allBookings]. *)
Definition attendeeForEach (users : list User.t) (organizer : gmap Z Z)
    (aggregate : gmap Z Z) (booking : Booking.t) : gmap Z Z :=
  fold_left (attendeeVisit organizer booking) users aggregate.

Definition attendeeUserIdAndAtCreatedPair (users : list User.t)
    (organizer : gmap Z Z) (allBookings : list Booking.t) : gmap Z Z :=
  fold_left (attendeeForEach users organizer) allBookings ∅.

(** [{...organizer, ...attendee}]: the entries of the second object win. *)
Definition userIdAndAtCreatedPair (c : Collaborators) (users : list User.t)
    (eventTypeId : Z) (allBookings : list Booking.t) : gmap Z Z :=
  let organizer :=
    organizerIdAndAtCreatedPair (user_findMany c (map User.id users) eventTypeId) in
  attendeeUserIdAndAtCreatedPair users organizer allBookings ∪ organizer.

(** The comparator handed to [sort]; [n] counts the draws of [Math.random]
    made so far. *)
Definition compareByRecency (c : Collaborators) (m : gmap Z Z) (a b : User.t)
    (n : nat) : Z * nat :=
  if date_gt (m !! User.id a) (m !! User.id b) then (1, n)
  else if date_lt (m !! User.id a) (m !! User.id b) then (-1, n)
  else (if random_gt_half c n then 1 else -1, S n).

(** [Array.prototype.sort] with a comparator that may draw random numbers.
    The language leaves the algorithm to the engine; it is fixed here to a
    stable insertion sort, [x] going after [y] when the comparator is
    positive on [(x, y)]. *)
Section Sort.
Context {A : Type} (cmp : A -> A -> nat -> Z * nat).

Fixpoint sort_insert (x : A) (l : list A) (n : nat) : list A * nat :=
  match l with
  | [] => ([x], n)
  | y :: l' =>
      let '(r, n') := cmp x y n in
      if 0 <? r then
        let '(l'', n'') := sort_insert x l' n' in (y :: l'', n'')
      else (x :: l, n')
  end.

Fixpoint Array_sort (l : list A) (n : nat) : list A * nat :=
  match l with
  | [] => ([], n)
  | x :: l' => let '(s, n') := Array_sort l' n in sort_insert x s n'
  end.
End Sort.

(** An object is always truthy. *)
Definition object_truthy (m : gmap Z Z) : bool := true.

Definition leastRecentlyBookedUser (c : Collaborators) (p : GetLuckyUserParams)
    (allBookings : list Booking.t) : completion (option User.t) :=
  let m :=
    userIdAndAtCreatedPair c (availableUsers p) (EventType.id (eventType p))
                           allBookings in
  if negb (object_truthy m) then Throw "Unable to find users by availableUser ids."
  else Return (hd_error (fst (Array_sort (compareByRecency c m) (availableUsers p) O))).

(** ** Orchestrator *)

(** The candidates handed to the priority filter. *)
Definition possibleLuckyUsers (p : GetLuckyUserParams)
    (allBookings : list Booking.t) : list User.t :=
  if EventType.isRRWeightsEnabled (eventType p)
  then getUsersBasedOnWeights p allBookings
  else availableUsers p.

(** The candidates handed to the recency tiebreak. *)
Definition highestPriorityUsers (p : GetLuckyUserParams)
    (allBookings : list Booking.t) : list User.t :=
  getUsersWithHighestPriority (possibleLuckyUsers p allBookings).

Definition fetchAllBookings (c : Collaborators) (p : GetLuckyUserParams) : list Booking.t :=
  getAllBookingsOfUsers c (EventType.id (eventType p))
    (map (fun host =>
            PartialUser.mk (PartialUser.id (Host.user host))
                           (PartialUser.email (Host.user host)))
         (allRRHosts p))
    true.

(** [distributionAlgorithm] is the string received at run time; the type of
    the source admits the single value ["MAXIMIZE_AVAILABILITY"], and the
    [switch] has no [default] branch. *)
Definition getLuckyUser (c : Collaborators) (distributionAlgorithm : string)
    (getLuckyUserParams : GetLuckyUserParams) : completion (option User.t) :=
  if (length (availableUsers getLuckyUserParams) =? 1)%nat
  then Return (hd_error (availableUsers getLuckyUserParams))
  else
    let allBookings := fetchAllBookings c getLuckyUserParams in
    if String.eqb distributionAlgorithm "MAXIMIZE_AVAILABILITY" then
      leastRecentlyBookedUser c
        (mkParams (highestPriorityUsers getLuckyUserParams allBookings)
                  (eventType getLuckyUserParams)
                  (allRRHosts getLuckyUserParams))
        allBookings
    else Return None.

(** ** Assigning attributes to a user: the access checks of the handler

    [assignUserToAttributeHandler] runs five checks in sequence and rejects
    with a [TRPCError] at the first that fails.  After the checks it starts
    the writes in callbacks it does not await, so the promise it returns
    settles on the checks alone; the writes are outside this embedding.
    The schema of the input is not part of the sources: the type of
    [attribute.value] is a parameter, observed through its truthiness. *)

Module Attributes.

(** How the promise returned by the handler settles. *)
Inductive outcome (A : Type) : Type :=
| Resolved (v : A)
| Rejected (code message : string).
Arguments Resolved {A} v.
Arguments Rejected {A} code message.

Module Organization.
Record t : Type := mk { id : option Z; isOrgAdmin : bool }.
End Organization.

Module RequestOption.
Record t : Type := mk { label : option string; value : string }.
End RequestOption.

Module RequestAttribute.
Record t (Value : Type) : Type := mk {
  id : string;
  value : option Value;
  options : option (list RequestOption.t)
}.
Arguments mk {Value} id value options.
Arguments id {Value} t.
Arguments value {Value} t.
Arguments options {Value} t.
End RequestAttribute.

Module Input.
Record t (Value : Type) : Type := mk {
  userId : Z;
  attributes : list (RequestAttribute.t Value)
}.
Arguments mk {Value} userId attributes.
Arguments userId {Value} t.
Arguments attributes {Value} t.
End Input.

Module OptionRow.
Record t : Type := mk { id : string; value : string; slug : string }.
End OptionRow.

Module AttributeRow.
Record t : Type := mk {
  id : string;
  type : string;
  options : option (list OptionRow.t)
}.
End AttributeRow.

Module Membership.
Record t : Type := mk { id : Z }.
End Membership.

(** The three queries of the checks, as functions of their [where] clause:
    the requested ids and the team id, or the user id and the team id. *)
Record Database : Type := mkDatabase {
  attribute_findMany : list string -> Z -> list AttributeRow.t;
  attributeOption_findMany : list string -> Z -> list OptionRow.t;
  membership_findFirst : Z -> Z -> option Membership.t
}.

(** [Array.from(new Set(l))]: the first occurrence of each element, in
    order. *)
Fixpoint dedupe_from (seen l : list string) : list string :=
  match l with
  | [] => []
  | x :: l' =>
      if existsb (String.eqb x) seen then dedupe_from seen l'
      else x :: dedupe_from (x :: seen) l'
  end.

Definition dedupe (l : list string) : list string := dedupe_from [] l.

Definition isOrgAdminOrThrow (org : Organization.t) : outcome unit :=
  if negb (Organization.isOrgAdmin org) then
    Rejected "UNAUTHORIZED"
             "You need to be an admin of the organization to use this feature"
  else Resolved tt.

Section Handler.
Context {Value : Type} (truthy : Value -> bool).

(** [attribute.value || attribute.options]: an absent value is falsy, an
    array of options is truthy even when empty. *)
Definition hasValueOrOptions (attribute : RequestAttribute.t Value) : bool :=
  match RequestAttribute.value attribute with
  | Some v => truthy v
  | None => false
  end
  || match RequestAttribute.options attribute with
     | Some _ => true
     | None => false
     end.

Definition filteredAttributes (input : Input.t Value) : list (RequestAttribute.t Value) :=
  List.filter hasValueOrOptions (Input.attributes input).

(** The ids handed to the attribute query. *)
Definition requestedIds (input : Input.t Value) : list string :=
  map RequestAttribute.id (filteredAttributes input).

Definition arrayOfAttributeOptionIds (attributes : list AttributeRow.t) : list string :=
  flat_map
    (fun attribute =>
       match AttributeRow.options attribute with
       | Some options => map OptionRow.id options
       | None => []
       end)
    attributes.

Definition assignUserToAttributeHandler (db : Database) (input : Input.t Value)
    (org : Organization.t) : outcome unit :=
  match Organization.id org with
  | None =>
      Rejected "UNAUTHORIZED"
               "You need to be apart of an organization to use this feature"
  | Some orgId =>
      if orgId =? 0 then
        Rejected "UNAUTHORIZED"
                 "You need to be apart of an organization to use this feature"
      else
        match isOrgAdminOrThrow org with
        | Rejected code message => Rejected code message
        | Resolved _ =>
            let attributes :=
              attribute_findMany db
                (map RequestAttribute.id (filteredAttributes input)) orgId in
            if negb (length attributes =? length (filteredAttributes input))%nat then
              Rejected "UNAUTHORIZED" "You do not have access to these attributes"
            else
              let attributeOptionIds := dedupe (arrayOfAttributeOptionIds attributes) in
              let attributeOptions :=
                attributeOption_findMany db attributeOptionIds orgId in
              if negb (length attributeOptions =? length attributeOptionIds)%nat then
                Rejected "UNAUTHORIZED"
                         "You do not have access to these attribute options"
              else
                match membership_findFirst db (Input.userId input) orgId with
                | None =>
                    Rejected "UNAUTHORIZED"
                             "This user is not apart of your organization"
                | Some membership => Resolved tt
                end
        end
  end.
End Handler.

(** Sample request: a text attribute and a select attribute of team 5. *)
Definition textTruthy (s : string) : bool := negb (String.eqb s "").

Definition sampleOrg : Organization.t := Organization.mk (Some 5) true.

Definition sampleTable : list (AttributeRow.t * Z) :=
  [ (AttributeRow.mk "attr-text" "TEXT" (Some []), 5);
    (AttributeRow.mk "attr-select" "SINGLE_SELECT"
       (Some [OptionRow.mk "opt-a" "A" "a"; OptionRow.mk "opt-b" "B" "b"]), 5);
    (AttributeRow.mk "attr-other" "TEXT" (Some []), 6) ].

(** A database answering from [sampleTable], each attribute found once, and
    knowing user 42 as member 9 of team 5. *)
Definition sampleDb : Database :=
  mkDatabase
    (fun ids teamId =>
       map fst
         (List.filter
            (fun row => existsb (String.eqb (AttributeRow.id (fst row))) ids
                        && (snd row =? teamId))
            sampleTable))
    (fun ids teamId =>
       List.filter (fun option => existsb (String.eqb (OptionRow.id option)) ids)
                   [OptionRow.mk "opt-a" "A" "a"; OptionRow.mk "opt-b" "B" "b"])
    (fun userId teamId =>
       if (userId =? 42) && (teamId =? 5) then Some (Membership.mk 9) else None).

Definition sampleInput : Input.t string :=
  Input.mk 42
    [ RequestAttribute.mk "attr-text" (Some "Berlin") None;
      RequestAttribute.mk "attr-select" None
        (Some [RequestOption.mk (Some "A") "opt-a"]);
      RequestAttribute.mk "attr-other" None None ].

(** The same request with the text attribute sent twice. *)
Definition duplicatedInput : Input.t string :=
  Input.mk 42
    [ RequestAttribute.mk "attr-text" (Some "Berlin") None;
      RequestAttribute.mk "attr-text" (Some "Paris") None ].

(** The same request asking for an option id the database never returned. *)
Definition foreignOptionInput : Input.t string :=
  Input.mk 42
    [ RequestAttribute.mk "attr-text" (Some "Hamburg") None;
      RequestAttribute.mk "attr-select" None
        (Some [RequestOption.mk None "opt-of-another-team"]) ].

End Attributes.

(** ** Reference notions used by the properties *)

(** The priority of a candidate once the default tier is substituted. *)
Definition effectivePriority (user : User.t) : Z := User.priority user ?? 2.

(** A candidate is of the highest tier when no candidate has a higher one. *)
Definition isHighestPriority (l : list User.t) (user : User.t) : bool :=
  forallb (fun other => effectivePriority other <=? effectivePriority user) l.

(** The shortfall of a candidate as the specification words it: target
    bookings, i.e. (all historical bookings + all roster adjustments) times
    the candidate's share of the roster weight, minus the bookings the
    candidate took part in and the candidate's own adjustment. *)
Definition rosterWeight (hosts : list Host.t) : Z :=
  fold_right Z.add 0 (map (fun host => Host.weight host ?? 100) hosts).

Definition rosterWeightAdjustments (hosts : list Host.t) : Z :=
  fold_right Z.add 0 (map (fun host => Host.weightAdjustment host ?? 0) hosts).

Definition isOrganizerOrAttendee (user : User.t) (booking : Booking.t) : bool :=
  userId_is booking (User.id user)
  || existsb (attendee_has_email (User.email user)) (Booking.attendees booking).

Definition historicalBookingCount (allBookings : list Booking.t) (user : User.t) : Z :=
  Z.of_nat (length (List.filter (isOrganizerOrAttendee user) allBookings)).

(** In exact arithmetic. *)
Definition exactShortfall (hosts : list Host.t) (allBookings : list Booking.t)
    (user : User.t) : Q :=
  let totalHistoricalBookings := Z.of_nat (length allBookings) in
  let candidateWeight := User.weight user ?? 100 in
  let ownAdjustment := User.weightAdjustment user ?? 0 in
  (inject_Z (totalHistoricalBookings + rosterWeightAdjustments hosts)
   * (inject_Z candidateWeight / inject_Z (rosterWeight hosts))
   - inject_Z (historicalBookingCount allBookings user + ownAdjustment))%Q.

(** In double precision: the share, the target and the difference are each
    rounded to the nearest double. *)
Definition shortfall (hosts : list Host.t) (allBookings : list Booking.t)
    (user : User.t) : Q :=
  let totalHistoricalBookings := Z.of_nat (length allBookings) in
  let candidateWeight := User.weight user ?? 100 in
  let ownAdjustment := User.weightAdjustment user ?? 0 in
  let targetShare :=
    round_double (inject_Z candidateWeight / inject_Z (rosterWeight hosts)) in
  let targetBookings :=
    round_double
      (inject_Z (totalHistoricalBookings + rosterWeightAdjustments hosts)
       * targetShare) in
  round_double
    (targetBookings
     - inject_Z (historicalBookingCount allBookings user + ownAdjustment)).

(** A candidate has the maximum shortfall when no candidate has a larger one. *)
Definition hasMaxShortfall (hosts : list Host.t) (allBookings : list Booking.t)
    (l : list User.t) (user : User.t) : bool :=
  forallb (fun other => Qle_bool (shortfall hosts allBookings other)
                                 (shortfall hosts allBookings user)) l.

Definition hasMaxExactShortfall (hosts : list Host.t) (allBookings : list Booking.t)
    (l : list User.t) (user : User.t) : bool :=
  forallb (fun other => Qle_bool (exactShortfall hosts allBookings other)
                                 (exactShortfall hosts allBookings user)) l.

(** The booking lists the candidate's email among its attendees. *)
Definition listsEmail (user : User.t) (booking : Booking.t) : bool :=
  existsb (attendee_has_email (User.email user)) (Booking.attendees booking).

(** The bookings that list the candidate among the attendees and were
    created strictly after [t0], in the order of [allBookings]. *)
Definition attendeeBookingsAfter (user : User.t) (t0 : Z)
    (allBookings : list Booking.t) : list Booking.t :=
  List.filter (fun booking => listsEmail user booking && (t0 <? Booking.createdAt booking))
              allBookings.

(** Bookings in descending order of creation. *)
Definition mostRecentFirst (allBookings : list Booking.t) : Prop :=
  Sorted.Sorted (fun b1 b2 => Booking.createdAt b2 <= Booking.createdAt b1) allBookings.

(** The test the program applies to a booking for a candidate whose
    organizer timestamp is [organizerDate]. *)
Definition attendeeAccepts (organizerDate : option Z) (user : User.t)
    (booking : Booking.t) : bool :=
  listsEmail user booking
  && negb (date_gt organizerDate (Some (Booking.createdAt booking))).

(** The date the organizer map stores for a row of the user query. *)
Definition organizerDate (row : Organizer.t) : Z :=
  match Organizer.bookings row with
  | createdAt :: _ => createdAt
  | [] => 0
  end.

(** [x] occurs before [y] in [l]. *)
Definition precedes {A : Type} (x y : A) (l : list A) : Prop :=
  exists l1 l2 l3 : list A, l = (l1 ++ x :: l2 ++ y :: l3)%list.

(** The merged date of a candidate, for candidates that have one. *)
Definition recencyKey (m : gmap Z Z) (user : User.t) : Z :=
  default 0 (m !! User.id user).

(** The same collaborators with other outcomes of [Math.random]. *)
Definition withRandom (c : Collaborators) (draws : nat -> bool) : Collaborators :=
  mkCollaborators (getAllBookingsOfUsers c) (user_findMany c) draws.

(** Every candidate has a merged date and no two candidates have the same. *)
Definition noTimestampTies (m : gmap Z Z) (candidates : list User.t) : Prop :=
  Forall (fun user => is_Some (m !! User.id user)) candidates
  /\ List.NoDup (map (fun user => m !! User.id user) candidates).

(** The number of historical bookings a candidate took part in is the least
    among the candidates. *)
Definition hasFewestBookings (allBookings : list Booking.t) (l : list User.t)
    (user : User.t) : bool :=
  forallb (fun other => historicalBookingCount allBookings user
                        <=? historicalBookingCount allBookings other) l.

(** ** Sample data *)

Module Sample.
Definition mkBooking (i createdAt : Z) (organizer : option Z)
    (emails : list string) : Booking.t :=
  Booking.mk i createdAt organizer "ACCEPTED"
             (map (fun e => Attendee.mk (Some e)) emails).

(** Two hosts of weights 200 and 100; the first organized one of the four
    historical bookings, the second three. *)
Definition alice : User.t := User.mk 1 "alice@example.com" None (Some 200) None.
Definition bob : User.t := User.mk 2 "bob@example.com" None (Some 100) None.

Definition roster : list Host.t :=
  [ Host.mk (PartialUser.mk 1 "alice@example.com") (Some 200) None;
    Host.mk (PartialUser.mk 2 "bob@example.com") (Some 100) None ].

Definition history : list Booking.t :=
  [ mkBooking 14 400 (Some 2) ["guest@example.com"];
    mkBooking 13 300 (Some 2) ["guest@example.com"];
    mkBooking 12 200 (Some 1) ["guest@example.com"];
    mkBooking 11 100 (Some 2) ["guest@example.com"] ].

Definition weighted : GetLuckyUserParams :=
  mkParams [alice; bob] (EventType.mk 7 true) roster.

Definition unweighted : GetLuckyUserParams :=
  mkParams [alice; bob] (EventType.mk 7 false) roster.

(** Collaborators answering from a fixed booking history and a fixed user
    table, with a fixed sequence of random draws. *)
Definition collaborators (bookings : list Booking.t) (table : list Organizer.t)
    (draws : nat -> bool) : Collaborators :=
  mkCollaborators
    (fun _ _ _ => bookings)
    (fun ids _ => List.filter (fun row => existsb (Z.eqb (Organizer.id row)) ids) table)
    draws.

Definition table : list Organizer.t := [Organizer.mk 1 [200]; Organizer.mk 2 [400]].

Definition world : Collaborators := collaborators history table (fun _ => true).

(** A history in which alice, whose last organized booking dates from 200,
    attended two later bookings organized by bob. *)
Definition attended : list Booking.t :=
  [ mkBooking 25 500 (Some 2) ["guest@example.com"; "alice@example.com"];
    mkBooking 24 400 (Some 2) ["alice@example.com"];
    mkBooking 22 200 (Some 1) ["guest@example.com"];
    mkBooking 21 100 (Some 2) ["alice@example.com"] ].

Definition attendedWorld : Collaborators :=
  collaborators attended [Organizer.mk 1 [200]; Organizer.mk 2 [500]] (fun _ => true).

(** Alice was never booked; bob organized a booking. *)
Definition neverBookedWorld (bobLast : Z) : Collaborators :=
  collaborators [mkBooking 31 bobLast (Some 2) ["guest@example.com"]]
                [Organizer.mk 1 []; Organizer.mk 2 [bobLast]] (fun _ => true).

Definition neverBookedParams : GetLuckyUserParams :=
  mkParams [alice; bob] (EventType.mk 7 false) roster.

Definition neverBookedDates (bobLast : Z) : gmap Z Z :=
  userIdAndAtCreatedPair (neverBookedWorld bobLast) [alice; bob] 7
    (fetchAllBookings (neverBookedWorld bobLast) neverBookedParams).

(** Every host of the roster has weight 0 and weighting is enabled. *)
Definition idleAlice : User.t := User.mk 1 "alice@example.com" None (Some 0) None.
Definition idleBob : User.t := User.mk 2 "bob@example.com" None (Some 0) None.

Definition zeroWeight : GetLuckyUserParams :=
  mkParams [idleAlice; idleBob] (EventType.mk 7 true)
    [ Host.mk (PartialUser.mk 1 "alice@example.com") (Some 0) None;
      Host.mk (PartialUser.mk 2 "bob@example.com") (Some 0) None ].

(** The roster weights are all 0 while the candidates carry the default
    weight, with a non-empty history. *)
Definition plainAlice : User.t := User.mk 1 "alice@example.com" None None None.
Definition plainBob : User.t := User.mk 2 "bob@example.com" None None None.

Definition zeroRoster : GetLuckyUserParams :=
  mkParams [plainAlice; plainBob] (EventType.mk 7 true)
    [ Host.mk (PartialUser.mk 1 "alice@example.com") (Some 0) None;
      Host.mk (PartialUser.mk 2 "bob@example.com") (Some 0) None ].

(** Both hosts have the default weight. *)
Definition evenRoster : GetLuckyUserParams :=
  mkParams [plainAlice; plainBob] (EventType.mk 7 true)
    [ Host.mk (PartialUser.mk 1 "alice@example.com") None None;
      Host.mk (PartialUser.mk 2 "bob@example.com") None None ].

(** Candidates of weights 100 and 400 in a roster of total weight 600, with
    two historical bookings of which the second candidate organized one: in
    exact arithmetic both shortfalls are 1/3. *)
Definition lightCarol : User.t := User.mk 1 "carol@example.com" None (Some 100) None.
Definition heavyDave : User.t := User.mk 2 "dave@example.com" None (Some 400) None.

Definition thirds : GetLuckyUserParams :=
  mkParams [lightCarol; heavyDave] (EventType.mk 7 true)
    [ Host.mk (PartialUser.mk 1 "carol@example.com") (Some 100) None;
      Host.mk (PartialUser.mk 2 "dave@example.com") (Some 400) None;
      Host.mk (PartialUser.mk 3 "erin@example.com") (Some 100) None ].

Definition thirdsHistory : list Booking.t :=
  [ mkBooking 52 200 (Some 2) ["guest@example.com"];
    mkBooking 51 100 (Some 3) ["guest@example.com"] ].

(** Two candidates of weight 2147483647 in a roster of total weight 1 and
    total adjustment 2147483647, with one booking, organized by the second
    candidate. *)
Definition hugeFrank : User.t := User.mk 1 "frank@example.com" None (Some 2147483647) None.
Definition hugeGrace : User.t := User.mk 2 "grace@example.com" None (Some 2147483647) None.

Definition huge : GetLuckyUserParams :=
  mkParams [hugeFrank; hugeGrace] (EventType.mk 7 true)
    [ Host.mk (PartialUser.mk 3 "erin@example.com") (Some 1) (Some 2147483647) ].

Definition hugeHistory : list Booking.t :=
  [ mkBooking 61 100 (Some 2) ["guest@example.com"] ].

(** Scenario A of the specification: priorities 1 and 2, weighting
    disabled. *)
Definition lowTier : User.t := User.mk 1 "alice@example.com" (Some 1) None None.
Definition midTier : User.t := User.mk 2 "bob@example.com" (Some 2) None None.

Definition scenarioA : GetLuckyUserParams :=
  mkParams [lowTier; midTier] (EventType.mk 7 false) roster.
End Sample.

(** * Properties *)

(** ** Numbers *)

Lemma Qle_bool_inject_Z (a b : Z) : Qle_bool (inject_Z a) (inject_Z b) = (a <=? b).
Proof. unfold Qle_bool; simpl. now rewrite !Z.mul_1_r. Qed.

Lemma Qeq_bool_inject_Z (a b : Z) : Qeq_bool (inject_Z a) (inject_Z b) = (a =? b).
Proof.
  unfold Qeq_bool; simpl. rewrite !Z.mul_1_r.
  destruct (Z.eqb_spec a b) as [->|Hne].
  - destruct (Z.eq_dec b b); [reflexivity | contradiction].
  - destruct (Z.eq_dec a b); [contradiction | reflexivity].
Qed.

Lemma num_eqb_of_Z (a b : Z) : num_eqb (of_Z a) (of_Z b) = (a =? b).
Proof. apply Qeq_bool_inject_Z. Qed.

(** ** Rounding to the nearest double *)

Lemma pow2_pos (e : Z) : (0 < Qpower 2 e)%Q.
Proof. apply Qpower_0_lt. reflexivity. Qed.

Lemma pow2_le (a b : Z) : a <= b -> (Qpower 2 a <= Qpower 2 b)%Q.
Proof. intros H. apply Qpower_le_compat_l; [exact H|]. discriminate. Qed.

Lemma pow2_succ (a : Z) : (Qpower 2 (a + 1) == 2 * Qpower 2 a)%Q.
Proof. rewrite Qpower_plus by discriminate. simpl (Qpower 2 1). ring. Qed.

Lemma pow2_sub (a b : Z) : (Qpower 2 (a - b) * Qpower 2 b == Qpower 2 a)%Q.
Proof.
  rewrite <- Qpower_plus by discriminate. now replace (a - b + b) with a by ring.
Qed.

Lemma pow2_of_Z (n : Z) : 0 <= n -> (inject_Z (2 ^ n) == Qpower 2 n)%Q.
Proof. intros H. now rewrite Zpower_Qpower. Qed.

(** The magnitude brackets the rational between two powers of 2. *)
Lemma Qmag_spec (q : Q) :
  ~ (q == 0)%Q -> (Qpower 2 (Qmag q) <= Qabs q /\ Qabs q < Qpower 2 (Qmag q + 1))%Q.
Proof.
  intros Hq. destruct q as [n d]. unfold Qmag. cbn [Qnum Qden].
  set (k := Z.log2 (Z.abs n) - Z.log2 (Z.pos d)).
  assert (Hn : 0 < Z.abs n).
  { unfold Qeq in Hq. simpl in Hq. lia. }
  pose proof (Z.log2_spec (Z.abs n) Hn) as [Hn1 Hn2].
  pose proof (Z.log2_spec (Z.pos d) ltac:(lia)) as [Hd1 Hd2].
  pose proof (Z.log2_nonneg (Z.abs n)) as Hln.
  pose proof (Z.log2_nonneg (Z.pos d)) as Hld.
  assert (Habs : (Qabs (n # d) == inject_Z (Z.abs n) / inject_Z (Z.pos d))%Q).
  { unfold Qabs. apply Qmake_Qdiv. }
  assert (Hdpos : (0 < inject_Z (Z.pos d))%Q) by (unfold Qlt; simpl; lia).
  (* bounds in Q *)
  assert (Qn1 : (Qpower 2 (Z.log2 (Z.abs n)) <= inject_Z (Z.abs n))%Q).
  { rewrite <- pow2_of_Z by exact Hln. now rewrite <- Zle_Qle. }
  assert (Qn2 : (inject_Z (Z.abs n) < Qpower 2 (Z.log2 (Z.abs n) + 1))%Q).
  { rewrite <- pow2_of_Z by lia. rewrite <- Zlt_Qlt. exact Hn2. }
  assert (Qd1 : (Qpower 2 (Z.log2 (Z.pos d)) <= inject_Z (Z.pos d))%Q).
  { rewrite <- pow2_of_Z by exact Hld. now rewrite <- Zle_Qle. }
  assert (Qd2 : (inject_Z (Z.pos d) < Qpower 2 (Z.log2 (Z.pos d) + 1))%Q).
  { rewrite <- pow2_of_Z by lia. rewrite <- Zlt_Qlt. exact Hd2. }
  assert (Hupper : (Qabs (n # d) < Qpower 2 (k + 1))%Q).
  { rewrite Habs. apply Qlt_shift_div_r; [exact Hdpos|].
    apply Qlt_le_trans with (Qpower 2 (Z.log2 (Z.abs n) + 1)); [exact Qn2|].
    rewrite <- (pow2_sub (Z.log2 (Z.abs n) + 1) (Z.log2 (Z.pos d))).
    replace (Z.log2 (Z.abs n) + 1 - Z.log2 (Z.pos d)) with (k + 1) by (unfold k; ring).
    apply Qmult_le_l; [apply pow2_pos | exact Qd1]. }
  assert (Hlower : (Qpower 2 (k - 1) <= Qabs (n # d))%Q).
  { rewrite Habs. apply Qle_shift_div_l; [exact Hdpos|].
    apply Qle_trans with (Qpower 2 (Z.log2 (Z.abs n))); [|exact Qn1].
    rewrite <- (pow2_sub (Z.log2 (Z.abs n)) (Z.log2 (Z.pos d) + 1)).
    replace (Z.log2 (Z.abs n) - (Z.log2 (Z.pos d) + 1)) with (k - 1) by (unfold k; ring).
    apply Qmult_le_l; [apply pow2_pos | apply Qlt_le_weak, Qd2]. }
  destruct (Qle_bool (Qpower 2 k) (Qabs (n # d))) eqn:Htest.
  - apply Qle_bool_iff in Htest. split; assumption.
  - split; [exact Hlower|].
    replace (k - 1 + 1) with k by ring.
    apply Qnot_le_lt. intros H. apply Qle_bool_iff in H. congruence.
Qed.

Lemma Qmag_le (p q : Q) :
  ~ (p == 0)%Q -> ~ (q == 0)%Q -> (Qabs p <= Qabs q)%Q -> Qmag p <= Qmag q.
Proof.
  intros Hp Hq Hle.
  destruct (Qmag_spec p Hp) as [Hp1 _]. destruct (Qmag_spec q Hq) as [_ Hq2].
  destruct (Z_le_gt_dec (Qmag p) (Qmag q)) as [H|H]; [exact H|]. exfalso.
  assert (Hpow : (Qpower 2 (Qmag q + 1) <= Qpower 2 (Qmag p))%Q) by (apply pow2_le; lia).
  lra.
Qed.

(** Rounding to the nearest integer. *)
Lemma Qround_even_cases (x : Q) :
  (Qround_even x = Qfloor x /\ (x - inject_Z (Qfloor x) <= 1 # 2)%Q)
  \/ (Qround_even x = Qfloor x + 1 /\ (1 # 2 <= x - inject_Z (Qfloor x))%Q).
Proof.
  unfold Qround_even.
  destruct (Qcompare_spec (x - inject_Z (Qfloor x)) (1 # 2)) as [H|H|H].
  - destruct (Z.even (Qfloor x)); [left|right]; split; try reflexivity; rewrite H;
      apply Qle_refl.
  - left. split; [reflexivity|]. now apply Qlt_le_weak.
  - right. split; [reflexivity|]. now apply Qlt_le_weak.
Qed.

Lemma Qround_even_Z (z : Z) : Qround_even (inject_Z z) = z.
Proof.
  unfold Qround_even. rewrite Qfloor_Z.
  destruct (Qcompare_spec (inject_Z z - inject_Z z) (1 # 2)) as [H|H|H].
  - exfalso. lra.
  - reflexivity.
  - exfalso. lra.
Qed.

Lemma Qround_even_le (x y : Q) : (x <= y)%Q -> Qround_even x <= Qround_even y.
Proof.
  intros Hxy.
  pose proof (Qfloor_resp_le x y Hxy) as Hf.
  pose proof (Qfloor_le x) as Hx1. pose proof (Qlt_floor x) as Hx2.
  pose proof (Qfloor_le y) as Hy1. pose proof (Qlt_floor y) as Hy2.
  destruct (Z.eq_dec (Qfloor x) (Qfloor y)) as [Heq|Hne].
  - unfold Qround_even. rewrite <- Heq.
    assert (Hr : (x - inject_Z (Qfloor x) <= y - inject_Z (Qfloor x))%Q) by lra.
    destruct (Qcompare_spec (x - inject_Z (Qfloor x)) (1 # 2)) as [H1|H1|H1];
      destruct (Qcompare_spec (y - inject_Z (Qfloor x)) (1 # 2)) as [H2|H2|H2];
      try lia; try (exfalso; lra);
      destruct (Z.even (Qfloor x)); lia.
  - destruct (Qround_even_cases x) as [[-> _]|[-> _]];
      destruct (Qround_even_cases y) as [[-> _]|[-> _]]; lia.
Qed.

Lemma Qround_even_lower (z : Z) (x : Q) : (inject_Z z <= x)%Q -> z <= Qround_even x.
Proof. intros H. rewrite <- (Qround_even_Z z). now apply Qround_even_le. Qed.

Lemma Qround_even_upper (z : Z) (x : Q) : (x <= inject_Z z)%Q -> Qround_even x <= z.
Proof. intros H. rewrite <- (Qround_even_Z z). now apply Qround_even_le. Qed.

(** The significand of a rational scaled by its magnitude has 53 bits. *)
Lemma scaled_pos (q : Q) :
  (0 < q)%Q ->
  (inject_Z (2 ^ 52) <= q / Qpower 2 (Qmag q - 52)
   /\ q / Qpower 2 (Qmag q - 52) <= inject_Z (2 ^ 53))%Q.
Proof.
  intros Hq.
  assert (Hnz : ~ (q == 0)%Q) by (intros H; rewrite H in Hq; discriminate).
  destruct (Qmag_spec q Hnz) as [H1 H2].
  rewrite Qabs_pos in H1, H2 by (now apply Qlt_le_weak).
  pose proof (pow2_pos (Qmag q - 52)) as He.
  rewrite !pow2_of_Z by lia. split.
  - apply Qle_shift_div_l; [exact He|].
    rewrite Qmult_comm, pow2_sub. exact H1.
  - apply Qle_shift_div_r; [exact He|].
    apply Qlt_le_weak. apply Qlt_le_trans with (Qpower 2 (Qmag q + 1)); [exact H2|].
    rewrite <- (pow2_sub (Qmag q + 1) (Qmag q - 52)).
    replace (Qmag q + 1 - (Qmag q - 52)) with 53 by ring. apply Qle_refl.
Qed.

Lemma round_double_zero (q : Q) : (q == 0)%Q -> round_double q = 0%Q.
Proof.
  intros H. unfold round_double.
  now rewrite (proj2 (Qeq_bool_iff q 0) H).
Qed.

Lemma round_double_nonzero (q : Q) :
  ~ (q == 0)%Q ->
  round_double q
  = (inject_Z (Qround_even (q / Qpower 2 (Qmag q - 52))) * Qpower 2 (Qmag q - 52))%Q.
Proof.
  intros H. unfold round_double.
  destruct (Qeq_bool q 0) eqn:E; [|reflexivity].
  apply Qeq_bool_iff in E. contradiction.
Qed.

Lemma pow2_split (m : Z) :
  (Qpower 2 m == inject_Z (2 ^ 52) * Qpower 2 (m - 52))%Q
  /\ (Qpower 2 (m + 1) == inject_Z (2 ^ 53) * Qpower 2 (m - 52))%Q.
Proof.
  rewrite !pow2_of_Z by lia. split.
  - rewrite <- (pow2_sub m (m - 52)) at 1.
    now replace (m - (m - 52)) with 52 by ring.
  - rewrite <- (pow2_sub (m + 1) (m - 52)) at 1.
    now replace (m + 1 - (m - 52)) with 53 by ring.
Qed.

Lemma round_double_pos_bounds (q : Q) :
  (0 < q)%Q ->
  (Qpower 2 (Qmag q) <= round_double q /\ round_double q <= Qpower 2 (Qmag q + 1))%Q.
Proof.
  intros Hq.
  assert (Hnz : ~ (q == 0)%Q) by (intros H; rewrite H in Hq; discriminate).
  rewrite (round_double_nonzero q Hnz).
  destruct (scaled_pos q Hq) as [H1 H2].
  apply Qround_even_lower in H1. apply Qround_even_upper in H2.
  destruct (pow2_split (Qmag q)) as [-> ->].
  pose proof (pow2_pos (Qmag q - 52)) as He.
  rewrite Zle_Qle in H1, H2. split.
  - apply Qmult_le_compat_r; [exact H1 | now apply Qlt_le_weak].
  - apply Qmult_le_compat_r; [exact H2 | now apply Qlt_le_weak].
Qed.

Lemma Qmag_opp (q : Q) : Qmag (- q) = Qmag q.
Proof.
  destruct q as [n d]. unfold Qmag, Qabs, Qopp. cbn [Qnum Qden].
  now rewrite Z.abs_opp.
Qed.

Lemma scaled_neg (q : Q) :
  (q < 0)%Q ->
  (inject_Z (- 2 ^ 53) <= q / Qpower 2 (Qmag q - 52)
   /\ q / Qpower 2 (Qmag q - 52) <= inject_Z (- 2 ^ 52))%Q.
Proof.
  intros Hq.
  assert (Hpos : (0 < - q)%Q) by lra.
  destruct (scaled_pos (- q) Hpos) as [H1 H2]. rewrite Qmag_opp in H1, H2.
  pose proof (pow2_pos (Qmag q - 52)) as He.
  assert (Heq : (- q / Qpower 2 (Qmag q - 52) == - (q / Qpower 2 (Qmag q - 52)))%Q).
  { field. intros H. rewrite H in He. discriminate. }
  rewrite Heq in H1, H2. rewrite !inject_Z_opp. split; lra.
Qed.

Lemma round_double_neg_bounds (q : Q) :
  (q < 0)%Q ->
  (- Qpower 2 (Qmag q + 1) <= round_double q /\ round_double q <= - Qpower 2 (Qmag q))%Q.
Proof.
  intros Hq.
  assert (Hnz : ~ (q == 0)%Q) by (intros H; rewrite H in Hq; discriminate).
  rewrite (round_double_nonzero q Hnz).
  destruct (scaled_neg q Hq) as [H1 H2].
  apply Qround_even_lower in H1. apply Qround_even_upper in H2.
  destruct (pow2_split (Qmag q)) as [-> ->].
  pose proof (pow2_pos (Qmag q - 52)) as He.
  rewrite Zle_Qle in H1, H2. rewrite inject_Z_opp in H1, H2.
  set (m := inject_Z (Qround_even (q / Qpower 2 (Qmag q - 52)))) in *.
  set (u := Qpower 2 (Qmag q - 52)) in *.
  split.
  - apply Qle_trans with (- inject_Z (2 ^ 53) * u)%Q; [lra|].
    apply Qmult_le_compat_r; [exact H1 | now apply Qlt_le_weak].
  - apply Qle_trans with (- inject_Z (2 ^ 52) * u)%Q; [|lra].
    apply Qmult_le_compat_r; [exact H2 | now apply Qlt_le_weak].
Qed.

Lemma round_double_same_magnitude (p q : Q) :
  ~ (p == 0)%Q -> ~ (q == 0)%Q -> Qmag p = Qmag q -> (p <= q)%Q ->
  (round_double p <= round_double q)%Q.
Proof.
  intros Hp Hq Hmag Hle.
  rewrite (round_double_nonzero p Hp), (round_double_nonzero q Hq), Hmag.
  pose proof (pow2_pos (Qmag q - 52)) as He.
  apply Qmult_le_compat_r; [|now apply Qlt_le_weak].
  rewrite <- Zle_Qle. apply Qround_even_le.
  apply Qmult_le_compat_r; [exact Hle|].
  apply Qlt_le_weak, Qinv_lt_0_compat, He.
Qed.

(** Rounding to the nearest double is monotone. *)
Lemma round_double_le (p q : Q) : (p <= q)%Q -> (round_double p <= round_double q)%Q.
Proof.
  intros Hle.
  destruct (Q_dec p 0) as [[Hp|Hp]|Hp]; destruct (Q_dec q 0) as [[Hq|Hq]|Hq];
    try (exfalso; lra).
  - (* both negative *)
    assert (Hpz : ~ (p == 0)%Q) by lra. assert (Hqz : ~ (q == 0)%Q) by lra.
    assert (Hmag : Qmag q <= Qmag p).
    { apply Qmag_le; try assumption.
      rewrite !Qabs_neg by lra. lra. }
    destruct (Z.eq_dec (Qmag p) (Qmag q)) as [Heq|Hne].
    + now apply round_double_same_magnitude.
    + destruct (round_double_neg_bounds p Hp) as [_ Hp2].
      destruct (round_double_neg_bounds q Hq) as [Hq1 _].
      assert (Hpow : (Qpower 2 (Qmag q + 1) <= Qpower 2 (Qmag p))%Q)
        by (apply pow2_le; lia).
      lra.
  - (* p < 0 < q *)
    destruct (round_double_neg_bounds p Hp) as [_ Hp2].
    destruct (round_double_pos_bounds q Hq) as [Hq1 _].
    pose proof (pow2_pos (Qmag p)). pose proof (pow2_pos (Qmag q)). lra.
  - (* p < 0, q == 0 *)
    rewrite (round_double_zero q Hq).
    destruct (round_double_neg_bounds p Hp) as [_ Hp2].
    pose proof (pow2_pos (Qmag p)). lra.
  - (* both positive *)
    assert (Hpz : ~ (p == 0)%Q) by lra. assert (Hqz : ~ (q == 0)%Q) by lra.
    assert (Hmag : Qmag p <= Qmag q).
    { apply Qmag_le; try assumption.
      rewrite !Qabs_pos by lra. lra. }
    destruct (Z.eq_dec (Qmag p) (Qmag q)) as [Heq|Hne].
    + now apply round_double_same_magnitude.
    + destruct (round_double_pos_bounds p Hp) as [_ Hp2].
      destruct (round_double_pos_bounds q Hq) as [Hq1 _].
      assert (Hpow : (Qpower 2 (Qmag p + 1) <= Qpower 2 (Qmag q))%Q)
        by (apply pow2_le; lia).
      lra.
  - (* p == 0 < q *)
    rewrite (round_double_zero p Hp).
    destruct (round_double_pos_bounds q Hq) as [Hq1 _].
    pose proof (pow2_pos (Qmag q)). lra.
  - (* both zero *)
    rewrite (round_double_zero p Hp), (round_double_zero q Hq). apply Qle_refl.
Qed.

(** Some doubles: 100/600, a tie that goes to the even neighbour, and an
    integer of 62 bits. *)
Example round_double_one_sixth :
  Qeq (round_double (100 # 600)) (6004799503160661 # 36028797018963968).
Proof. vm_compute. reflexivity. Qed.

Example round_double_tie_to_even :
  Qeq (round_double (inject_Z (2 ^ 53 + 1))) (inject_Z (2 ^ 53))
  /\ Qeq (round_double (inject_Z (2 ^ 53 + 3))) (inject_Z (2 ^ 53 + 4)).
Proof. split; vm_compute; reflexivity. Qed.

Example round_double_62_bits :
  Qeq (round_double (inject_Z (2 ^ 62 - 2 ^ 31 - 1))) (inject_Z (2 ^ 62 - 2 ^ 31)).
Proof. vm_compute. reflexivity. Qed.

(** The running maximum of finite numbers is one of them and bounds them. *)
Lemma fold_num_max_Fin (qs : list Q) (acc : Q) :
  exists m, fold_left num_max (map Fin qs) (Fin acc) = Fin m
            /\ In m (acc :: qs)
            /\ forall q, In q (acc :: qs) -> Qle q m.
Proof.
  revert acc. induction qs as [|q qs IH]; intros acc.
  - exists acc. simpl. split; [reflexivity|]. split; [now left|].
    intros q [<-|[]]. apply Qle_refl.
  - simpl. destruct (Qle_bool acc q) eqn:Hle.
    + destruct (IH q) as (m & Hm & Hin & Hub).
      exists m. split; [exact Hm|]. split.
      * right. exact Hin.
      * intros x [<-|Hx].
        -- apply Qle_trans with q; [now apply Qle_bool_iff | apply Hub; now left].
        -- apply Hub. exact Hx.
    + destruct (IH acc) as (m & Hm & Hin & Hub).
      exists m. split; [exact Hm|]. split.
      * destruct Hin as [<-|Hin]; [now left | right; now right].
      * intros x [<-|[<-|Hx]].
        -- apply Hub. now left.
        -- apply Qle_trans with acc; [|apply Hub; now left].
           apply Qlt_le_weak, Qnot_le_lt. intros H.
           apply Qle_bool_iff in H. congruence.
        -- apply Hub. now right.
Qed.

Lemma Math_max_Fin (qs : list Q) :
  qs <> [] ->
  exists m, Math_max (map Fin qs) = Fin m /\ In m qs /\ forall q, In q qs -> Qle q m.
Proof.
  destruct qs as [|q qs]; [congruence|]. intros _.
  unfold Math_max. simpl. apply fold_num_max_Fin.
Qed.

Lemma Math_max_of_Z (zs : list Z) :
  zs <> [] ->
  exists m, Math_max (map of_Z zs) = of_Z m /\ In m zs /\ forall z, In z zs -> z <= m.
Proof.
  intros Hne.
  destruct (Math_max_Fin (map inject_Z zs)) as (m & Hm & Hin & Hub).
  { destruct zs; [congruence | discriminate]. }
  apply in_map_iff in Hin. destruct Hin as (z & <- & Hz).
  exists z. split; [|split].
  - change (map of_Z zs) with (map (fun y => Fin (inject_Z y)) zs).
    rewrite <- (map_map inject_Z Fin). exact Hm.
  - exact Hz.
  - intros y Hy. rewrite Zle_Qle. apply Hub. now apply in_map.
Qed.

(** ** Priority filter *)

Lemma highestPriority_test (l : list User.t) (w user : User.t) :
  In w l -> (forall v, In v l -> effectivePriority v <= effectivePriority w) ->
  In user l ->
  isHighestPriority l user = (effectivePriority user =? effectivePriority w).
Proof.
  intros Hw Hub Hu. apply eq_true_iff_eq. unfold isHighestPriority.
  rewrite forallb_forall, Z.eqb_eq. split.
  - intros H. specialize (H w Hw). apply Z.leb_le in H.
    specialize (Hub user Hu). lia.
  - intros Heq v Hv. apply Z.leb_le. rewrite Heq. now apply Hub.
Qed.

Lemma getUsersWithHighestPriority_spec (l : list User.t) :
  getUsersWithHighestPriority l = List.filter (isHighestPriority l) l.
Proof.
  destruct l as [|u0 l0] eqn:El; [reflexivity|]. rewrite <- El.
  assert (Hne : map effectivePriority l <> []) by (subst l; discriminate).
  destruct (Math_max_of_Z _ Hne) as (m & Hm & Hin & Hub).
  apply in_map_iff in Hin. destruct Hin as (w & <- & Hw).
  unfold getUsersWithHighestPriority.
  change (map (fun user => of_Z (User.priority user ?? 2)) l)
    with (map (fun user => of_Z (effectivePriority user)) l).
  rewrite <- (map_map effectivePriority of_Z), Hm.
  apply filter_ext_in. intros user Hu.
  rewrite (highestPriority_test l w user Hw); [| |exact Hu].
  - unfold effectivePriority at 3. destruct (User.priority user) as [p|]; simpl.
    + rewrite Qeq_bool_inject_Z. now rewrite orb_false_r.
    + rewrite Qeq_bool_inject_Z. now rewrite Z.eqb_sym.
  - intros v Hv. apply Hub. now apply in_map.
Qed.

Lemma getUsersWithHighestPriority_nonempty (l : list User.t) :
  getUsersWithHighestPriority l = [] -> l = [].
Proof.
  intros Hnil. destruct l as [|u0 l0] eqn:El; [reflexivity|]. exfalso.
  rewrite <- El in *.
  assert (Hne : map effectivePriority l <> []) by (subst l; discriminate).
  destruct (Math_max_of_Z _ Hne) as (m & _ & Hin & Hub).
  apply in_map_iff in Hin. destruct Hin as (w & <- & Hw).
  assert (Hin : In w (getUsersWithHighestPriority l)).
  { rewrite getUsersWithHighestPriority_spec. apply filter_In. split; [exact Hw|].
    apply forallb_forall. intros v Hv. apply Z.leb_le, Hub. now apply in_map. }
  rewrite Hnil in Hin. exact Hin.
Qed.

(** C5: the priority filter keeps exactly the candidates whose effective
    priority (missing priority counted as 2) is the maximum over the
    candidates; two candidates of equal effective priority, such as an
    explicit 2 and an absent priority, are kept or dropped together; and the
    result is empty exactly when the input is. *)
Theorem priority_filter_keeps_highest_tier (l : list User.t) :
  getUsersWithHighestPriority l = List.filter (isHighestPriority l) l
  /\ (forall u v, In u l -> In v l -> effectivePriority u = effectivePriority v ->
        (In u (getUsersWithHighestPriority l) <-> In v (getUsersWithHighestPriority l)))
  /\ (getUsersWithHighestPriority l = [] <-> l = []).
Proof.
  pose proof (getUsersWithHighestPriority_spec l) as Hspec.
  split; [exact Hspec|]. split.
  - intros u v Hu Hv Heq. rewrite Hspec, !filter_In.
    unfold isHighestPriority. rewrite Heq. tauto.
  - split; [apply getUsersWithHighestPriority_nonempty | intros ->; reflexivity].
Qed.

(** ** Weight-shortfall filter *)

Lemma fold_left_Zadd_map {A : Type} (f : A -> Z) (l : list A) (acc : Z) :
  fold_left (fun sum x => sum + f x) l acc = acc + fold_right Z.add 0 (map f l).
Proof.
  revert acc. induction l as [|x l IH]; intros acc; simpl; [lia|].
  rewrite IH. lia.
Qed.

Lemma totalWeight_rosterWeight (hosts : list Host.t) :
  totalWeight hosts = rosterWeight hosts.
Proof. unfold totalWeight, rosterWeight. now rewrite fold_left_Zadd_map. Qed.

Lemma allWeightAdjustments_roster (hosts : list Host.t) :
  allWeightAdjustments hosts = rosterWeightAdjustments hosts.
Proof.
  unfold allWeightAdjustments, rosterWeightAdjustments.
  now rewrite fold_left_Zadd_map.
Qed.

(** With a non-zero roster weight the shortfall the program computes is
    finite and is the shortfall of the specification evaluated in double
    precision. *)
Lemma bookingShortfall_finite (hosts : list Host.t) (allBookings : list Booking.t)
    (user : User.t) :
  rosterWeight hosts <> 0 ->
  bookingShortfall hosts allBookings user = Fin (shortfall hosts allBookings user).
Proof.
  intros Hw. unfold bookingShortfall, shortfall, historicalBookingCount.
  rewrite totalWeight_rosterWeight, allWeightAdjustments_roster.
  unfold of_Z, num_div.
  change 0%Q with (inject_Z 0). rewrite !Qeq_bool_inject_Z.
  destruct (Z.eqb_spec (rosterWeight hosts) 0) as [He|_]; [contradiction|].
  reflexivity.
Qed.

Lemma NoDup_map_injective {A B : Type} (f : A -> B) (l : list A) (x y : A) :
  List.NoDup (map f l) -> In x l -> In y l -> f x = f y -> x = y.
Proof.
  induction l as [|a l IH]; simpl; intros Hnd Hx Hy Hf; [contradiction|].
  inversion Hnd as [|? ? Hnotin Hnd']; subst.
  destruct Hx as [->|Hx], Hy as [->|Hy].
  - reflexivity.
  - exfalso. apply Hnotin. rewrite Hf. now apply in_map.
  - exfalso. apply Hnotin. rewrite <- Hf. now apply in_map.
  - now apply IH.
Qed.

(** Selecting by membership of the id in the set of selected ids is
    selecting by the test itself when ids are unique. *)
Lemma filter_by_id_set (P : User.t -> bool) (l : list User.t) :
  List.NoDup (map User.id l) ->
  List.filter
    (fun user => bool_decide (User.id user ∈
                   (list_to_set (map User.id (List.filter P l)) : gset Z))) l
  = List.filter P l.
Proof.
  intros Hnd. apply filter_ext_in. intros u Hu.
  apply eq_true_iff_eq. rewrite bool_decide_eq_true, elem_of_list_to_set.
  rewrite list_elem_of_In, in_map_iff. split.
  - intros (v & Hid & Hv). apply filter_In in Hv. destruct Hv as [Hv HP].
    now rewrite <- (NoDup_map_injective User.id l v u Hnd Hv Hu Hid).
  - intros HP. exists u. split; [reflexivity|]. now apply filter_In.
Qed.

Lemma hasMaxShortfall_test (hosts : list Host.t) (allBookings : list Booking.t)
    (l : list User.t) (m : Q) (user : User.t) :
  In m (map (shortfall hosts allBookings) l) ->
  (forall q, In q (map (shortfall hosts allBookings) l) -> Qle q m) ->
  In user l ->
  Qeq_bool (shortfall hosts allBookings user) m = hasMaxShortfall hosts allBookings l user.
Proof.
  intros Hm Hub Hu. apply eq_true_iff_eq. unfold hasMaxShortfall.
  rewrite Qeq_bool_iff, forallb_forall. split.
  - intros Heq v Hv. apply Qle_bool_iff. rewrite Heq. apply Hub. now apply in_map.
  - intros Hall. apply Qle_antisym.
    + apply Hub. now apply in_map.
    + apply in_map_iff in Hm. destruct Hm as (w & <- & Hw).
      apply Qle_bool_iff. now apply Hall.
Qed.

Lemma filter_decorated {A B C : Type} (f : A -> B) (g : A -> C) (t : B -> bool)
    (l : list A) :
  map (fun us => g (fst us)) (List.filter (fun us => t (snd us)) (map (fun u => (u, f u)) l))
  = map g (List.filter (fun u => t (f u)) l).
Proof.
  induction l as [|u l IH]; [reflexivity|]. simpl.
  destruct (t (f u)); simpl; now rewrite IH.
Qed.

Lemma getUsersBasedOnWeights_spec (p : GetLuckyUserParams) (allBookings : list Booking.t) :
  List.NoDup (map User.id (availableUsers p)) ->
  rosterWeight (allRRHosts p) <> 0 ->
  getUsersBasedOnWeights p allBookings
  = List.filter (hasMaxShortfall (allRRHosts p) allBookings (availableUsers p))
                (availableUsers p).
Proof.
  intros Hnd Hw. unfold getUsersBasedOnWeights.
  destruct p as [l et hosts]. simpl in *.
  rewrite (filter_decorated (bookingShortfall hosts allBookings) User.id
             (fun x => num_eqb x _)).
  rewrite filter_by_id_set by exact Hnd.
  destruct l as [|u0 l0] eqn:El; [reflexivity|]. rewrite <- El in *.
  rewrite map_map. simpl.
  rewrite (map_ext _ (fun u => Fin (shortfall hosts allBookings u)))
    by (intros u; now apply bookingShortfall_finite).
  rewrite <- (map_map (shortfall hosts allBookings) Fin).
  destruct (Math_max_Fin (map (shortfall hosts allBookings) l)) as (m & Hm & Hin & Hub).
  { subst l. discriminate. }
  rewrite Hm. apply filter_ext_in. intros u Hu.
  rewrite bookingShortfall_finite by exact Hw. simpl.
  now apply hasMaxShortfall_test.
Qed.

(** C2, as stated, fails when the shortfall is read in exact arithmetic: for
    weights 100 and 400 of a roster weight of 600 and two bookings, one of
    them organized by the second candidate, both exact shortfalls are 1/3,
    the maximum, but the doubles the program computes are
    0.3333333333333333 and 0.33333333333333326 and only the first candidate
    is returned. *)
Lemma weight_filter_exact_tie_counterexample :
  rosterWeight (allRRHosts Sample.thirds) = 600
  /\ Qeq (exactShortfall (allRRHosts Sample.thirds) Sample.thirdsHistory Sample.lightCarol)
         (1 # 3)
  /\ Qeq (exactShortfall (allRRHosts Sample.thirds) Sample.thirdsHistory Sample.heavyDave)
         (1 # 3)
  /\ List.filter
       (hasMaxExactShortfall (allRRHosts Sample.thirds) Sample.thirdsHistory
                             (availableUsers Sample.thirds))
       (availableUsers Sample.thirds)
     = [Sample.lightCarol; Sample.heavyDave]
  /\ bookingShortfall (allRRHosts Sample.thirds) Sample.thirdsHistory Sample.lightCarol
     = Fin (6004799503160661 # 18014398509481984)
  /\ Qeq (shortfall (allRRHosts Sample.thirds) Sample.thirdsHistory Sample.heavyDave)
         (1501199875790165 # 4503599627370496)
  /\ getUsersBasedOnWeights Sample.thirds Sample.thirdsHistory = [Sample.lightCarol]
  /\ getUsersBasedOnWeights Sample.thirds Sample.thirdsHistory
     <> List.filter
          (hasMaxExactShortfall (allRRHosts Sample.thirds) Sample.thirdsHistory
                                (availableUsers Sample.thirds))
          (availableUsers Sample.thirds).
Proof.
  repeat split; try (vm_compute; reflexivity).
  vm_compute. discriminate.
Qed.

(** C2, amended: with a non-zero total roster weight, the weight-shortfall
    filter returns exactly the candidates whose shortfall is the maximum over
    the candidates, ties included, the shortfall being the double the
    program computes: (historical bookings + all roster adjustments) *
    (candidate weight, default 100, / sum of roster weights, default 100
    each) - (bookings organized or attended by the candidate + the
    candidate's adjustment, default 0), where the division, the
    multiplication and the subtraction are each rounded to the nearest
    double.  Candidates are identified by their ids.  This is the set handed
    to the next stage when weighting is enabled. *)
Theorem weight_filter_keeps_max_shortfall (p : GetLuckyUserParams)
    (allBookings : list Booking.t) :
  List.NoDup (map User.id (availableUsers p)) ->
  rosterWeight (allRRHosts p) <> 0 ->
  (forall user,
      bookingShortfall (allRRHosts p) allBookings user
      = Fin (shortfall (allRRHosts p) allBookings user))
  /\ getUsersBasedOnWeights p allBookings
     = List.filter (hasMaxShortfall (allRRHosts p) allBookings (availableUsers p))
                   (availableUsers p)
  /\ (EventType.isRRWeightsEnabled (eventType p) = true ->
      possibleLuckyUsers p allBookings
      = List.filter (hasMaxShortfall (allRRHosts p) allBookings (availableUsers p))
                    (availableUsers p)).
Proof.
  intros Hnd Hw. split; [|split].
  - intros user. now apply bookingShortfall_finite.
  - now apply getUsersBasedOnWeights_spec.
  - intros Hen. unfold possibleLuckyUsers. rewrite Hen.
    now apply getUsersBasedOnWeights_spec.
Qed.

Lemma weight_filter_keeps_max_shortfall_witness :
  List.NoDup (map User.id (availableUsers Sample.weighted))
  /\ rosterWeight (allRRHosts Sample.weighted) <> 0
  /\ getUsersBasedOnWeights Sample.weighted Sample.history
     = List.filter
         (hasMaxShortfall (allRRHosts Sample.weighted) Sample.history
                          (availableUsers Sample.weighted))
         (availableUsers Sample.weighted).
Proof.
  assert (Hnd : List.NoDup (map User.id (availableUsers Sample.weighted))).
  { simpl. repeat constructor; simpl; intuition discriminate. }
  assert (Hw : rosterWeight (allRRHosts Sample.weighted) <> 0).
  { vm_compute. discriminate. }
  split; [exact Hnd|]. split; [exact Hw|].
  exact (proj1 (proj2 (weight_filter_keeps_max_shortfall
                         Sample.weighted Sample.history Hnd Hw))).
Defined.

(** ** Sorting *)

Section SortFacts.
Context {A : Type} (cmp : A -> A -> nat -> Z * nat).

Lemma sort_insert_perm (x : A) (l : list A) (n : nat) :
  Permutation (x :: l) (fst (sort_insert cmp x l n)).
Proof.
  revert n. induction l as [|y l IH]; intros n; simpl; [reflexivity|].
  destruct (cmp x y n) as [r n']. destruct (0 <? r); [|reflexivity].
  specialize (IH n'). destruct (sort_insert cmp x l n') as [l'' n'']. simpl in *.
  rewrite perm_swap. now apply perm_skip.
Qed.

Lemma Array_sort_perm (l : list A) (n : nat) :
  Permutation l (fst (Array_sort cmp l n)).
Proof.
  induction l as [|x l IH]; simpl; [reflexivity|].
  destruct (Array_sort cmp l n) as [s n']. simpl in IH.
  rewrite <- sort_insert_perm. now apply perm_skip.
Qed.

Lemma Array_sort_head_in (l : list A) (n : nat) (x : A) :
  hd_error (fst (Array_sort cmp l n)) = Some x -> In x l.
Proof.
  intros H. apply (Permutation_in x (Permutation_sym (Array_sort_perm l n))).
  destruct (fst (Array_sort cmp l n)); [discriminate|].
  injection H as ->. now left.
Qed.

Lemma Array_sort_head_some (l : list A) (n : nat) :
  l <> [] -> exists x, hd_error (fst (Array_sort cmp l n)) = Some x.
Proof.
  intros Hne. pose proof (Array_sort_perm l n) as Hp.
  destruct (fst (Array_sort cmp l n)) as [|x s].
  - apply Permutation_sym, Permutation_nil in Hp. contradiction.
  - now exists x.
Qed.
End SortFacts.

(** ** Orchestrator *)

(** C10: with no available user the call completes normally and returns no
    host: every stage maps the empty list to the empty list and the first
    element of the empty sorted list is [undefined]. *)
Theorem no_candidate_returns_no_host (c : Collaborators) (distributionAlgorithm : string)
    (et : EventType.t) (hosts : list Host.t) :
  let p := mkParams [] et hosts in
  possibleLuckyUsers p (fetchAllBookings c p) = []
  /\ highestPriorityUsers p (fetchAllBookings c p) = []
  /\ getLuckyUser c distributionAlgorithm p = Return None.
Proof.
  intros p.
  assert (H1 : forall bs, possibleLuckyUsers p bs = []).
  { intros bs. unfold possibleLuckyUsers.
    destruct (EventType.isRRWeightsEnabled (eventType p)); reflexivity. }
  assert (H2 : forall bs, highestPriorityUsers p bs = []).
  { intros bs. unfold highestPriorityUsers. now rewrite H1. }
  split; [apply H1|]. split; [apply H2|].
  unfold getLuckyUser. simpl.
  destruct (String.eqb distributionAlgorithm "MAXIMIZE_AVAILABILITY"); [|reflexivity].
  unfold leastRecentlyBookedUser. simpl. now rewrite H2.
Qed.

(** C8: when weighting is disabled the shortfall stage is skipped: the
    priority filter receives the available users unchanged. *)
Theorem weights_disabled_skips_shortfall (c : Collaborators) (p : GetLuckyUserParams)
    (allBookings : list Booking.t) :
  EventType.isRRWeightsEnabled (eventType p) = false ->
  possibleLuckyUsers p allBookings = availableUsers p
  /\ highestPriorityUsers p allBookings = getUsersWithHighestPriority (availableUsers p)
  /\ (length (availableUsers p) <> 1%nat ->
      getLuckyUser c "MAXIMIZE_AVAILABILITY" p
      = leastRecentlyBookedUser c
          (mkParams (getUsersWithHighestPriority (availableUsers p))
                    (eventType p) (allRRHosts p))
          (fetchAllBookings c p)).
Proof.
  intros Hoff.
  assert (H1 : forall bs, possibleLuckyUsers p bs = availableUsers p).
  { intros bs. unfold possibleLuckyUsers. now rewrite Hoff. }
  split; [apply H1|]. split.
  - unfold highestPriorityUsers. now rewrite H1.
  - intros Hlen. unfold getLuckyUser.
    destruct (Nat.eqb_spec (length (availableUsers p)) 1) as [He|_]; [contradiction|].
    simpl. unfold highestPriorityUsers. now rewrite H1.
Qed.

Lemma weights_disabled_skips_shortfall_witness :
  EventType.isRRWeightsEnabled (eventType Sample.unweighted) = false
  /\ possibleLuckyUsers Sample.unweighted Sample.history
     = availableUsers Sample.unweighted.
Proof.
  split; [reflexivity|].
  exact (proj1 (weights_disabled_skips_shortfall
                  Sample.world Sample.unweighted Sample.history eq_refl)).
Defined.

(** C3, as stated, fails: with an algorithm other than
    MAXIMIZE_AVAILABILITY and two candidates the call returns [undefined]
    and throws nothing. *)
Lemma unknown_algorithm_counterexample :
  "MAXIMIZE_FAIRNESS" <> "MAXIMIZE_AVAILABILITY"
  /\ getLuckyUser Sample.world "MAXIMIZE_FAIRNESS" Sample.weighted = Return None
  /\ ~ (exists message,
           getLuckyUser Sample.world "MAXIMIZE_FAIRNESS" Sample.weighted = Throw message).
Proof.
  split; [discriminate|]. split; [reflexivity|].
  intros [message H]. discriminate H.
Qed.

(** C3, amended: an algorithm value other than MAXIMIZE_AVAILABILITY raises
    no error; the call returns the single candidate when there is exactly
    one, and no host ([undefined]) otherwise. *)
Theorem unknown_algorithm_returns_without_error (c : Collaborators)
    (distributionAlgorithm : string) (p : GetLuckyUserParams) :
  distributionAlgorithm <> "MAXIMIZE_AVAILABILITY" ->
  getLuckyUser c distributionAlgorithm p
  = Return (if (length (availableUsers p) =? 1)%nat
            then hd_error (availableUsers p) else None).
Proof.
  intros Hne. unfold getLuckyUser.
  destruct (length (availableUsers p) =? 1)%nat; [reflexivity|].
  apply String.eqb_neq in Hne. simpl. now rewrite Hne.
Qed.

Lemma unknown_algorithm_returns_without_error_witness :
  "MAXIMIZE_FAIRNESS" <> "MAXIMIZE_AVAILABILITY"
  /\ getLuckyUser Sample.world "MAXIMIZE_FAIRNESS" Sample.weighted = Return None.
Proof.
  assert (H : "MAXIMIZE_FAIRNESS" <> "MAXIMIZE_AVAILABILITY") by discriminate.
  split; [exact H|].
  exact (unknown_algorithm_returns_without_error
           Sample.world "MAXIMIZE_FAIRNESS" Sample.weighted H).
Defined.

(** C6, as stated, fails: with priorities 1 and 2 the priority filter does
    not keep the candidate of priority 1, and that candidate is not chosen. *)
Lemma scenario_A_counterexample :
  User.priority Sample.lowTier = Some 1
  /\ User.priority Sample.midTier = Some 2
  /\ getUsersWithHighestPriority (availableUsers Sample.scenarioA) = [Sample.midTier]
  /\ getUsersWithHighestPriority (availableUsers Sample.scenarioA) <> [Sample.lowTier]
  /\ getLuckyUser Sample.world "MAXIMIZE_AVAILABILITY" Sample.scenarioA
     = Return (Some Sample.midTier)
  /\ getLuckyUser Sample.world "MAXIMIZE_AVAILABILITY" Sample.scenarioA
     <> Return (Some Sample.lowTier).
Proof.
  repeat split; try reflexivity; vm_compute; discriminate.
Qed.

(** C6, amended: for two candidates of priorities 1 and 2 with weighting
    disabled, only the candidate of priority 2 survives the priority filter,
    whatever the booking history, and the pipeline chooses that candidate. *)
Theorem scenario_A_chooses_priority_2 (c : Collaborators)
    (id1 id2 : Z) (email1 email2 : string) (w1 a1 w2 a2 : option Z)
    (eventTypeId : Z) (hosts : list Host.t) :
  let U1 := User.mk id1 email1 (Some 1) w1 a1 in
  let U2 := User.mk id2 email2 (Some 2) w2 a2 in
  let et := EventType.mk eventTypeId false in
  (getUsersWithHighestPriority [U1; U2] = [U2]
   /\ getLuckyUser c "MAXIMIZE_AVAILABILITY" (mkParams [U1; U2] et hosts) = Return (Some U2))
  /\ (getUsersWithHighestPriority [U2; U1] = [U2]
      /\ getLuckyUser c "MAXIMIZE_AVAILABILITY" (mkParams [U2; U1] et hosts) = Return (Some U2)).
Proof.
  intros U1 U2 et.
  assert (H12 : getUsersWithHighestPriority [U1; U2] = [U2]) by reflexivity.
  assert (H21 : getUsersWithHighestPriority [U2; U1] = [U2]) by reflexivity.
  split; (split; [assumption|]).
  - unfold getLuckyUser, leastRecentlyBookedUser, highestPriorityUsers, possibleLuckyUsers.
    simpl availableUsers. simpl eventType. cbv iota beta.
    change (EventType.isRRWeightsEnabled et) with false. cbv iota.
    rewrite H12. reflexivity.
  - unfold getLuckyUser, leastRecentlyBookedUser, highestPriorityUsers, possibleLuckyUsers.
    simpl availableUsers. simpl eventType. cbv iota beta.
    change (EventType.isRRWeightsEnabled et) with false. cbv iota.
    rewrite H21. reflexivity.
Qed.

(** ** Recency maps *)

Lemma attendeeVisit_other (organizer : gmap Z Z) (booking : Booking.t)
    (aggregate : gmap Z Z) (user : User.t) (k : Z) :
  User.id user <> k ->
  attendeeVisit organizer booking aggregate user !! k = aggregate !! k.
Proof.
  intros Hne. unfold attendeeVisit.
  repeat (match goal with |- context [if ?b then _ else _] => destruct b end;
          try reflexivity).
  now apply lookup_insert_ne.
Qed.

Lemma attendeeVisit_self (organizer : gmap Z Z) (booking : Booking.t)
    (aggregate : gmap Z Z) (user : User.t) :
  attendeeVisit organizer booking aggregate user !! User.id user
  = match aggregate !! User.id user with
    | Some t => Some t
    | None =>
        if attendeeAccepts (organizer !! User.id user) user booking
        then Some (Booking.createdAt booking) else None
    end.
Proof.
  unfold attendeeVisit, attendeeAccepts, listsEmail.
  destruct (aggregate !! User.id user) as [t|] eqn:Hagg.
  - rewrite bool_decide_eq_true_2 by (now exists t). exact Hagg.
  - rewrite bool_decide_eq_false_2 by (intros [t Ht]; discriminate).
    destruct (existsb _ _); simpl; [|exact Hagg].
    destruct (date_gt _ _); simpl; [exact Hagg|].
    apply lookup_insert_eq.
Qed.

Lemma attendeeForEach_other (users : list User.t) (organizer : gmap Z Z)
    (aggregate : gmap Z Z) (booking : Booking.t) (k : Z) :
  ~ In k (map User.id users) ->
  attendeeForEach users organizer aggregate booking !! k = aggregate !! k.
Proof.
  unfold attendeeForEach. revert aggregate.
  induction users as [|v users IH]; intros aggregate Hk; [reflexivity|].
  simpl in *. rewrite IH by tauto. apply attendeeVisit_other. tauto.
Qed.

Lemma attendeeForEach_lookup (users : list User.t) (organizer : gmap Z Z)
    (aggregate : gmap Z Z) (booking : Booking.t) (user : User.t) :
  List.NoDup (map User.id users) -> In user users ->
  attendeeForEach users organizer aggregate booking !! User.id user
  = match aggregate !! User.id user with
    | Some t => Some t
    | None =>
        if attendeeAccepts (organizer !! User.id user) user booking
        then Some (Booking.createdAt booking) else None
    end.
Proof.
  revert aggregate.
  induction users as [|v users IH]; intros aggregate Hnd Hin; [contradiction|].
  simpl in Hnd. inversion Hnd as [|? ? Hnotin Hnd']; subst.
  destruct Hin as [->|Hin].
  - change (attendeeForEach (user :: users) organizer aggregate booking)
      with (attendeeForEach users organizer
              (attendeeVisit organizer booking aggregate user) booking).
    rewrite attendeeForEach_other by exact Hnotin.
    apply attendeeVisit_self.
  - change (attendeeForEach (v :: users) organizer aggregate booking)
      with (attendeeForEach users organizer
              (attendeeVisit organizer booking aggregate v) booking).
    rewrite IH by assumption.
    rewrite attendeeVisit_other; [reflexivity|].
    intros Heq. apply Hnotin. rewrite Heq. now apply in_map.
Qed.

(** The attendee map records, for each candidate, the first booking of the
    scan that the program accepts for that candidate. *)
Lemma attendee_fold_lookup (users : list User.t) (organizer : gmap Z Z)
    (allBookings : list Booking.t) (aggregate : gmap Z Z) (user : User.t) :
  List.NoDup (map User.id users) -> In user users ->
  fold_left (attendeeForEach users organizer) allBookings aggregate !! User.id user
  = match aggregate !! User.id user with
    | Some t => Some t
    | None =>
        option_map Booking.createdAt
          (List.find (attendeeAccepts (organizer !! User.id user) user) allBookings)
    end.
Proof.
  intros Hnd Hin. revert aggregate.
  induction allBookings as [|b bs IH]; intros aggregate; simpl.
  - now destruct (aggregate !! User.id user).
  - rewrite IH, attendeeForEach_lookup by assumption.
    destruct (aggregate !! User.id user); [reflexivity|].
    now destruct (attendeeAccepts _ user b).
Qed.

Lemma attendee_lookup (users : list User.t) (organizer : gmap Z Z)
    (allBookings : list Booking.t) (user : User.t) :
  List.NoDup (map User.id users) -> In user users ->
  attendeeUserIdAndAtCreatedPair users organizer allBookings !! User.id user
  = option_map Booking.createdAt
      (List.find (attendeeAccepts (organizer !! User.id user) user) allBookings).
Proof.
  intros Hnd Hin. unfold attendeeUserIdAndAtCreatedPair.
  rewrite attendee_fold_lookup by assumption. now rewrite lookup_empty.
Qed.

Lemma merged_lookup (attendee organizer : gmap Z Z) (k : Z) :
  (attendee ∪ organizer) !! k
  = match attendee !! k with Some t => Some t | None => organizer !! k end.
Proof.
  rewrite lookup_union.
  destruct (attendee !! k), (organizer !! k); reflexivity.
Qed.

Lemma find_vs_strictly_after (user : User.t) (t0 : Z) (allBookings : list Booking.t) :
  StronglySorted (fun b1 b2 => Booking.createdAt b2 <= Booking.createdAt b1) allBookings ->
  match List.find (attendeeAccepts (Some t0) user) allBookings with
  | Some b => Booking.createdAt b
  | None => t0
  end
  = match attendeeBookingsAfter user t0 allBookings with
    | b :: _ => Booking.createdAt b
    | [] => t0
    end.
Proof.
  induction 1 as [|b bs Hs IH Hall]; [reflexivity|].
  unfold attendeeBookingsAfter, attendeeAccepts in *. simpl.
  destruct (listsEmail user b); simpl; [|exact IH].
  destruct (Z.ltb_spec (Booking.createdAt b) t0) as [Hlt|Hge]; simpl.
  - destruct (Z.ltb_spec t0 (Booking.createdAt b)); [lia|]. exact IH.
  - destruct (Z.ltb_spec t0 (Booking.createdAt b)) as [Hgt|Hle]; [reflexivity|].
    assert (Heq : Booking.createdAt b = t0) by lia.
    assert (Hnil : List.filter
                     (fun booking => listsEmail user booking
                                     && (t0 <? Booking.createdAt booking)) bs = []).
    { clear IH Hs. induction bs as [|b' bs IHbs]; [reflexivity|].
      inversion Hall as [|? ? Hb' Hall']; subst. simpl.
      destruct (Z.ltb_spec (Booking.createdAt b) (Booking.createdAt b')); [lia|].
      rewrite andb_false_r. now apply IHbs. }
    now rewrite Hnil.
Qed.

Lemma strictly_after_head_latest (user : User.t) (t0 : Z) (allBookings : list Booking.t)
    (b b' : Booking.t) :
  StronglySorted (fun b1 b2 => Booking.createdAt b2 <= Booking.createdAt b1) allBookings ->
  hd_error (attendeeBookingsAfter user t0 allBookings) = Some b ->
  In b' (attendeeBookingsAfter user t0 allBookings) ->
  Booking.createdAt b' <= Booking.createdAt b.
Proof.
  unfold attendeeBookingsAfter.
  induction 1 as [|x bs Hs IH Hall]; [discriminate|]. simpl.
  destruct (listsEmail user x && (t0 <? Booking.createdAt x)); [|exact IH].
  simpl. intros [= <-] [<-|Hin]; [lia|].
  apply filter_In in Hin. destruct Hin as [Hin _].
  rewrite List.Forall_forall in Hall. now apply Hall.
Qed.

Lemma mostRecentFirst_strongly (allBookings : list Booking.t) :
  mostRecentFirst allBookings ->
  StronglySorted (fun b1 b2 => Booking.createdAt b2 <= Booking.createdAt b1) allBookings.
Proof.
  apply Sorted_StronglySorted. intros x y z Hxy Hyz. lia.
Qed.

(** C4: with the bookings scanned most recent first, the merged recency
    value of a candidate is decided by the bookings that list the
    candidate's email among the attendees and were created strictly after
    the candidate's organizer timestamp: when there is one, the merged value
    is the creation time of the first of them, which is the most recent, and
    it replaces the organizer timestamp; when there is none, the merged value
    is the organizer timestamp. *)
Theorem attendee_recency_overrides_organizer (c : Collaborators) (users : list User.t)
    (eventTypeId : Z) (allBookings : list Booking.t) (user : User.t) (t0 : Z) :
  List.NoDup (map User.id users) ->
  In user users ->
  mostRecentFirst allBookings ->
  organizerIdAndAtCreatedPair (user_findMany c (map User.id users) eventTypeId)
    !! User.id user = Some t0 ->
  userIdAndAtCreatedPair c users eventTypeId allBookings !! User.id user
  = Some match attendeeBookingsAfter user t0 allBookings with
         | booking :: _ => Booking.createdAt booking
         | [] => t0
         end
  /\ (forall b b',
         hd_error (attendeeBookingsAfter user t0 allBookings) = Some b ->
         In b' (attendeeBookingsAfter user t0 allBookings) ->
         Booking.createdAt b' <= Booking.createdAt b).
Proof.
  intros Hnd Hin Hsorted Horg. apply mostRecentFirst_strongly in Hsorted. split.
  - unfold userIdAndAtCreatedPair.
    rewrite merged_lookup, attendee_lookup by assumption.
    rewrite Horg, <- find_vs_strictly_after by exact Hsorted.
    now destruct (List.find _ allBookings).
  - intros b b'. now apply strictly_after_head_latest.
Qed.

Lemma attendee_recency_overrides_organizer_witness :
  List.NoDup (map User.id [Sample.alice; Sample.bob])
  /\ In Sample.alice [Sample.alice; Sample.bob]
  /\ mostRecentFirst Sample.attended
  /\ organizerIdAndAtCreatedPair
       (user_findMany Sample.attendedWorld (map User.id [Sample.alice; Sample.bob]) 7)
       !! User.id Sample.alice = Some 200
  /\ userIdAndAtCreatedPair Sample.attendedWorld [Sample.alice; Sample.bob] 7
       Sample.attended !! User.id Sample.alice = Some 500.
Proof.
  assert (Hnd : List.NoDup (map User.id [Sample.alice; Sample.bob])).
  { simpl. repeat constructor; simpl; intuition discriminate. }
  assert (Hin : In Sample.alice [Sample.alice; Sample.bob]) by (now left).
  assert (Hs : mostRecentFirst Sample.attended).
  { unfold mostRecentFirst, Sample.attended. repeat constructor; simpl; lia. }
  assert (Ho : organizerIdAndAtCreatedPair
                 (user_findMany Sample.attendedWorld
                    (map User.id [Sample.alice; Sample.bob]) 7)
                 !! User.id Sample.alice = Some 200) by reflexivity.
  repeat (split; [assumption|]).
  exact (proj1 (attendee_recency_overrides_organizer
                  Sample.attendedWorld [Sample.alice; Sample.bob] 7
                  Sample.attended Sample.alice 200 Hnd Hin Hs Ho)).
Defined.

(** The guard of the program skips a booking only when the organizer date is
    strictly later: a booking created exactly at the organizer date is
    recorded in the attendee map, with the date the organizer map already
    holds, so the merged value is the same. *)
Lemma attendee_map_records_booking_at_organizer_date :
  attendeeUserIdAndAtCreatedPair [Sample.alice] {[1 := 200]}
    [Sample.mkBooking 41 200 (Some 2) ["alice@example.com"]] !! 1 = Some 200
  /\ attendeeBookingsAfter Sample.alice 200
       [Sample.mkBooking 41 200 (Some 2) ["alice@example.com"]] = [].
Proof. split; reflexivity. Qed.

Lemma organizer_fold_lookup (rows : list Organizer.t) (acc : gmap Z Z) (k v : Z) :
  (forall row, In row rows -> Organizer.id row = k -> organizerDate row = v) ->
  (exists row, In row rows /\ Organizer.id row = k) \/ acc !! k = Some v ->
  fold_left (fun keyValuePair user =>
               <[Organizer.id user := organizerDate user]> keyValuePair) rows acc
    !! k = Some v.
Proof.
  revert acc. induction rows as [|r rows IH]; intros acc Hall Hex; simpl.
  - destruct Hex as [(row & [] & _)|Hacc]. exact Hacc.
  - apply IH.
    + intros row Hrow. apply Hall. now right.
    + destruct (Z.eq_dec (Organizer.id r) k) as [Heq|Hne].
      * right. rewrite Heq, lookup_insert_eq. f_equal. apply Hall; [now left|exact Heq].
      * destruct Hex as [(row & [<-|Hrow] & Hid)|Hacc].
        -- contradiction.
        -- left. now exists row.
        -- right. now rewrite lookup_insert_ne.
Qed.

Lemma organizer_lookup (rows : list Organizer.t) (k v : Z) :
  (exists row, In row rows /\ Organizer.id row = k) ->
  (forall row, In row rows -> Organizer.id row = k -> organizerDate row = v) ->
  organizerIdAndAtCreatedPair rows !! k = Some v.
Proof.
  intros Hex Hall. apply organizer_fold_lookup; [exact Hall | now left].
Qed.

Lemma organizer_fold_values (rows : list Organizer.t) (acc : gmap Z Z) (k t : Z) :
  fold_left (fun keyValuePair user =>
               <[Organizer.id user := organizerDate user]> keyValuePair) rows acc
    !! k = Some t ->
  (exists row, In row rows /\ Organizer.id row = k /\ t = organizerDate row)
  \/ acc !! k = Some t.
Proof.
  revert acc. induction rows as [|r rows IH]; intros acc H; simpl in *; [now right|].
  destruct (IH _ H) as [(row & Hrow & Hid & Ht)|Hacc].
  - left. exists row. tauto.
  - destruct (Z.eq_dec (Organizer.id r) k) as [Heq|Hne].
    + rewrite Heq, lookup_insert_eq in Hacc. injection Hacc as <-.
      left. exists r. tauto.
    + rewrite lookup_insert_ne in Hacc by exact Hne. now right.
Qed.

Lemma organizer_values (rows : list Organizer.t) (k t : Z) :
  organizerIdAndAtCreatedPair rows !! k = Some t ->
  exists row, In row rows /\ Organizer.id row = k /\ t = organizerDate row.
Proof.
  intros H. destruct (organizer_fold_values rows ∅ k t H) as [Hex|Hacc]; [exact Hex|].
  rewrite lookup_empty in Hacc. discriminate.
Qed.

Lemma attendeeVisit_values (organizer : gmap Z Z) (booking : Booking.t)
    (aggregate : gmap Z Z) (user : User.t) (k t : Z) :
  attendeeVisit organizer booking aggregate user !! k = Some t ->
  aggregate !! k = Some t \/ t = Booking.createdAt booking.
Proof.
  unfold attendeeVisit.
  repeat (match goal with |- context [if ?b then _ else _] => destruct b end;
          try (intros H; now left)).
  destruct (Z.eq_dec (User.id user) k) as [->|Hne].
  - rewrite lookup_insert_eq. intros [= <-]. now right.
  - rewrite lookup_insert_ne by exact Hne. intros H. now left.
Qed.

Lemma attendeeForEach_values (users : list User.t) (organizer : gmap Z Z)
    (aggregate : gmap Z Z) (booking : Booking.t) (k t : Z) :
  attendeeForEach users organizer aggregate booking !! k = Some t ->
  aggregate !! k = Some t \/ t = Booking.createdAt booking.
Proof.
  unfold attendeeForEach. revert aggregate.
  induction users as [|v users IH]; intros aggregate H; simpl in *; [now left|].
  destruct (IH _ H) as [Hv|Ht]; [|now right].
  now apply attendeeVisit_values in Hv.
Qed.

Lemma attendee_values (users : list User.t) (organizer : gmap Z Z)
    (allBookings : list Booking.t) (k t : Z) :
  attendeeUserIdAndAtCreatedPair users organizer allBookings !! k = Some t ->
  exists booking, In booking allBookings /\ t = Booking.createdAt booking.
Proof.
  unfold attendeeUserIdAndAtCreatedPair.
  assert (Hgen : forall aggregate,
             fold_left (attendeeForEach users organizer) allBookings aggregate !! k = Some t ->
             aggregate !! k = Some t
             \/ exists booking, In booking allBookings /\ t = Booking.createdAt booking).
  { induction allBookings as [|b bs IH]; intros aggregate H; simpl in *; [now left|].
    destruct (IH _ H) as [Hb|(booking & Hin & Ht)].
    - apply attendeeForEach_values in Hb. destruct Hb as [Hagg|Ht]; [now left|].
      right. exists b. split; [now left|exact Ht].
    - right. exists booking. split; [now right|exact Ht]. }
  intros H. destruct (Hgen ∅ H) as [Hempty|Hex]; [|exact Hex].
  rewrite lookup_empty in Hempty. discriminate.
Qed.

(** ** Sorting by merged date *)

Section SortedFacts.
Context {A : Type} (cmp : A -> A -> nat -> Z * nat).
Context (key : A -> Z) (dom : A -> Prop).
Hypothesis cmp_after :
  forall x y n, dom x -> dom y -> 0 < fst (cmp x y n) -> key y <= key x.
Hypothesis cmp_before :
  forall x y n, dom x -> dom y -> fst (cmp x y n) <= 0 -> key x <= key y.

Let ascending (a b : A) : Prop := key a <= key b.

Lemma sort_insert_sorted (x : A) (l : list A) (n : nat) :
  dom x -> Forall dom l -> StronglySorted ascending l ->
  StronglySorted ascending (fst (sort_insert cmp x l n)).
Proof.
  intros Hx. revert n. induction l as [|y l IH]; intros n Hdom Hs; simpl.
  - repeat constructor.
  - inversion Hdom as [|? ? Hy Hdom']; subst.
    inversion Hs as [|? ? Hs' Hall]; subst.
    pose proof (cmp_after x y n Hx Hy) as Hafter.
    pose proof (cmp_before x y n Hx Hy) as Hbefore.
    destruct (cmp x y n) as [r n']. simpl in *.
    destruct (Z.ltb_spec 0 r) as [Hpos|Hneg].
    + specialize (IH n' Hdom' Hs').
      pose proof (sort_insert_perm cmp x l n') as Hperm.
      destruct (sort_insert cmp x l n') as [l'' n'']. simpl in *.
      constructor; [exact IH|].
      apply (Permutation_Forall Hperm). constructor; [now apply Hafter|exact Hall].
    + constructor; [now constructor|].
      constructor; [now apply Hbefore|].
      eapply List.Forall_impl; [|exact Hall].
      intros z Hz. unfold ascending in *. specialize (Hbefore Hneg). lia.
Qed.

Lemma Array_sort_sorted (l : list A) (n : nat) :
  Forall dom l -> StronglySorted ascending (fst (Array_sort cmp l n)).
Proof.
  induction l as [|x l IH]; intros Hdom; simpl; [constructor|].
  inversion Hdom as [|? ? Hx Hdom']; subst.
  specialize (IH Hdom').
  pose proof (Array_sort_perm cmp l n) as Hperm.
  destruct (Array_sort cmp l n) as [s n']. simpl in *.
  apply sort_insert_sorted; [exact Hx| |exact IH].
  now apply (Permutation_Forall Hperm).
Qed.

Lemma sorted_precedes (l : list A) (x y : A) :
  StronglySorted ascending l -> precedes x y l -> key x <= key y.
Proof.
  intros Hs (l1 & l2 & l3 & ->).
  induction l1 as [|z l1 IH]; simpl in Hs.
  - inversion Hs as [|? ? _ Hall]; subst.
    rewrite List.Forall_forall in Hall. apply Hall.
    apply in_or_app. right. now left.
  - inversion Hs; subst. now apply IH.
Qed.
End SortedFacts.

Lemma compareByRecency_after (c : Collaborators) (m : gmap Z Z) (a b : User.t) (n : nat) :
  is_Some (m !! User.id a) -> is_Some (m !! User.id b) ->
  0 < fst (compareByRecency c m a b n) -> recencyKey m b <= recencyKey m a.
Proof.
  intros [ta Ha] [tb Hb]. unfold compareByRecency, recencyKey, date_lt, date_gt.
  rewrite Ha, Hb. simpl.
  destruct (Z.ltb_spec tb ta); [lia|].
  destruct (Z.ltb_spec ta tb); simpl; lia.
Qed.

Lemma compareByRecency_before (c : Collaborators) (m : gmap Z Z) (a b : User.t) (n : nat) :
  is_Some (m !! User.id a) -> is_Some (m !! User.id b) ->
  fst (compareByRecency c m a b n) <= 0 -> recencyKey m a <= recencyKey m b.
Proof.
  intros [ta Ha] [tb Hb]. unfold compareByRecency, recencyKey, date_lt, date_gt.
  rewrite Ha, Hb. simpl.
  destruct (Z.ltb_spec tb ta); simpl; [lia|].
  destruct (Z.ltb_spec ta tb); simpl; lia.
Qed.

(** When the dates differ the comparator draws no random number. *)
Lemma compareByRecency_no_tie (c : Collaborators) (m : gmap Z Z) (a b : User.t)
    (n : nat) (ta tb : Z) :
  m !! User.id a = Some ta -> m !! User.id b = Some tb -> ta <> tb ->
  compareByRecency c m a b n = (if tb <? ta then 1 else -1, n).
Proof.
  intros Ha Hb Hne. unfold compareByRecency, date_lt, date_gt. rewrite Ha, Hb.
  destruct (Z.ltb_spec tb ta); [reflexivity|].
  destruct (Z.ltb_spec ta tb); [reflexivity|lia].
Qed.

(** With a date for every candidate the sorted array is in ascending order
    of merged date, whatever the random draws. *)
Lemma sort_by_recency_sorted (c : Collaborators) (m : gmap Z Z) (users : list User.t)
    (n : nat) :
  Forall (fun user => is_Some (m !! User.id user)) users ->
  StronglySorted (fun a b => recencyKey m a <= recencyKey m b)
                 (fst (Array_sort (compareByRecency c m) users n)).
Proof.
  apply (Array_sort_sorted (compareByRecency c m) (recencyKey m)
           (fun user => is_Some (m !! User.id user))).
  - intros x y k. apply compareByRecency_after.
  - intros x y k. apply compareByRecency_before.
Qed.

Lemma organizer_is_Some (rows : list Organizer.t) (k : Z) :
  (exists row, In row rows /\ Organizer.id row = k) ->
  is_Some (organizerIdAndAtCreatedPair rows !! k).
Proof.
  unfold organizerIdAndAtCreatedPair. generalize (∅ : gmap Z Z).
  induction rows as [|r rows IH]; intros acc (row & Hin & Hid); [contradiction|].
  simpl. destruct Hin as [->|Hin].
  - clear IH. subst k.
    assert (Hgen : forall rs (a : gmap Z Z),
               is_Some (a !! Organizer.id row) ->
               is_Some (fold_left
                          (fun keyValuePair user =>
                             <[Organizer.id user := organizerDate user]> keyValuePair)
                          rs a !! Organizer.id row)).
    { induction rs as [|r' rs IHrs]; intros a Ha; simpl; [exact Ha|].
      apply IHrs. destruct (Z.eq_dec (Organizer.id r') (Organizer.id row)) as [->|Hne].
      - rewrite lookup_insert_eq. eauto.
      - now rewrite lookup_insert_ne. }
    apply Hgen. rewrite lookup_insert_eq. eauto.
  - apply IH. now exists row.
Qed.

Lemma merged_is_Some (c : Collaborators) (users : list User.t) (eventTypeId : Z)
    (allBookings : list Booking.t) (user : User.t) :
  (exists row, In row (user_findMany c (map User.id users) eventTypeId)
               /\ Organizer.id row = User.id user) ->
  is_Some (userIdAndAtCreatedPair c users eventTypeId allBookings !! User.id user).
Proof.
  intros Hrow. unfold userIdAndAtCreatedPair. rewrite merged_lookup.
  destruct (attendeeUserIdAndAtCreatedPair _ _ _ !! User.id user); [eauto|].
  now apply organizer_is_Some.
Qed.

Lemma find_none_all {A : Type} (f : A -> bool) (l : list A) :
  (forall x, In x l -> f x = false) -> List.find f l = None.
Proof.
  induction l as [|x l IH]; intros H; simpl; [reflexivity|].
  rewrite (H x) by (now left). apply IH. intros y Hy. apply H. now right.
Qed.

(** C7, as stated, fails: the value given to a candidate without bookings is
    the epoch, which is not the earliest date; a candidate whose booking was
    created before the epoch sorts first and is chosen. *)
Lemma never_booked_counterexample :
  user_findMany (Sample.neverBookedWorld (-1)) [1; 2] 7
  = [Organizer.mk 1 []; Organizer.mk 2 [-1]]
  /\ (forall booking,
        In booking (fetchAllBookings (Sample.neverBookedWorld (-1))
                                     Sample.neverBookedParams) ->
        listsEmail Sample.alice booking = false)
  /\ Sample.neverBookedDates (-1) !! User.id Sample.alice = Some 0
  /\ Sample.neverBookedDates (-1) !! User.id Sample.bob = Some (-1)
  /\ compareByRecency (Sample.neverBookedWorld (-1)) (Sample.neverBookedDates (-1))
       Sample.alice Sample.bob O = (1, O)
  /\ getLuckyUser (Sample.neverBookedWorld (-1)) "MAXIMIZE_AVAILABILITY"
       Sample.neverBookedParams
     = Return (Some Sample.bob).
Proof.
  repeat split; try reflexivity.
  intros booking [<-|[]]. reflexivity.
Qed.

(** C7, amended: a candidate with no qualifying booking receives the epoch
    ([new Date(0)]) as merged recency value; when no booking was created
    before the epoch, every merged value is at or after it, so that the
    candidate is ordered before every candidate with a later merged date,
    by the comparator and in the sorted array, and ties with the others. *)
Theorem never_booked_gets_epoch (c : Collaborators) (users : list User.t)
    (eventTypeId : Z) (allBookings : list Booking.t) (a : User.t) :
  let rows := user_findMany c (map User.id users) eventTypeId in
  let m := userIdAndAtCreatedPair c users eventTypeId allBookings in
  List.NoDup (map User.id users) ->
  In a users ->
  (forall user, In user users ->
     exists row, In row rows /\ Organizer.id row = User.id user) ->
  (forall row, In row rows -> Organizer.id row = User.id a -> Organizer.bookings row = []) ->
  (forall booking, In booking allBookings -> listsEmail a booking = false) ->
  (forall row t, In row rows -> In t (Organizer.bookings row) -> 0 <= t) ->
  (forall booking, In booking allBookings -> 0 <= Booking.createdAt booking) ->
  m !! User.id a = Some 0
  /\ forall b tb, In b users -> m !! User.id b = Some tb ->
       0 <= tb
       /\ (0 < tb ->
           (forall n, compareByRecency c m a b n = (-1, n)
                      /\ compareByRecency c m b a n = (1, n))
           /\ ~ precedes b a (fst (Array_sort (compareByRecency c m) users O))).
Proof.
  intros rows m Hnd Ha Hrows Hnone Hatt Hrow0 Hbk0.
  assert (Hma : m !! User.id a = Some 0).
  { unfold m, userIdAndAtCreatedPair. rewrite merged_lookup, attendee_lookup by assumption.
    rewrite find_none_all.
    - simpl. apply organizer_lookup; [now apply Hrows|].
      intros row Hrow Hid. unfold organizerDate. fold rows in Hrow.
      now rewrite (Hnone row Hrow Hid).
    - intros booking Hin. unfold attendeeAccepts. now rewrite (Hatt booking Hin). }
  split; [exact Hma|]. intros b tb Hb Hmb.
  assert (Htb : 0 <= tb).
  { unfold m, userIdAndAtCreatedPair in Hmb. rewrite merged_lookup in Hmb.
    destruct (attendeeUserIdAndAtCreatedPair _ _ _ !! User.id b) as [t|] eqn:Hattb.
    - injection Hmb as ->. apply attendee_values in Hattb.
      destruct Hattb as (booking & Hin & ->). now apply Hbk0.
    - apply organizer_values in Hmb. destruct Hmb as (row & Hin & _ & ->).
      unfold organizerDate. destruct (Organizer.bookings row) as [|t ts] eqn:Hbs; [lia|].
      apply (Hrow0 row t Hin). rewrite Hbs. now left. }
  split; [exact Htb|]. intros Hpos. split.
  - intros n. split.
    + rewrite (compareByRecency_no_tie c m a b n 0 tb Hma Hmb) by lia.
      destruct (Z.ltb_spec tb 0); [lia|reflexivity].
    + rewrite (compareByRecency_no_tie c m b a n tb 0 Hmb Hma) by lia.
      destruct (Z.ltb_spec 0 tb); [reflexivity|lia].
  - intros Hprec.
    assert (Hall : Forall (fun user => is_Some (m !! User.id user)) users).
    { apply List.Forall_forall. intros user Hu. apply merged_is_Some. now apply Hrows. }
    pose proof (sort_by_recency_sorted c m users O Hall) as Hsorted.
    pose proof (sorted_precedes (recencyKey m) _ b a Hsorted Hprec) as Hle.
    unfold recencyKey in Hle. rewrite Hma, Hmb in Hle. simpl in Hle. lia.
Qed.

Lemma never_booked_gets_epoch_witness :
  Sample.neverBookedDates 400 !! User.id Sample.alice = Some 0
  /\ Sample.neverBookedDates 400 !! User.id Sample.bob = Some 400
  /\ compareByRecency (Sample.neverBookedWorld 400) (Sample.neverBookedDates 400)
       Sample.alice Sample.bob O = (-1, O)
  /\ ~ precedes Sample.bob Sample.alice
        (fst (Array_sort (compareByRecency (Sample.neverBookedWorld 400)
                                           (Sample.neverBookedDates 400))
                         [Sample.alice; Sample.bob] O)).
Proof.
  set (c := Sample.neverBookedWorld 400).
  set (users := [Sample.alice; Sample.bob]).
  set (allBookings := fetchAllBookings c Sample.neverBookedParams).
  assert (Hnd : List.NoDup (map User.id users)).
  { simpl. repeat constructor; simpl; intuition discriminate. }
  assert (Ha : In Sample.alice users) by (now left).
  assert (Hb : In Sample.bob users) by (right; now left).
  assert (Hrows : forall user, In user users ->
            exists row, In row (user_findMany c (map User.id users) 7)
                        /\ Organizer.id row = User.id user).
  { intros user [<-|[<-|[]]].
    - exists (Organizer.mk 1 []). split; [now left|reflexivity].
    - exists (Organizer.mk 2 [400]). split; [right; now left|reflexivity]. }
  assert (Hnone : forall row, In row (user_findMany c (map User.id users) 7) ->
            Organizer.id row = User.id Sample.alice -> Organizer.bookings row = []).
  { intros row [<-|[<-|[]]]; [reflexivity|discriminate]. }
  assert (Hatt : forall booking, In booking allBookings ->
            listsEmail Sample.alice booking = false).
  { intros booking [<-|[]]. reflexivity. }
  assert (Hrow0 : forall row t, In row (user_findMany c (map User.id users) 7) ->
            In t (Organizer.bookings row) -> 0 <= t).
  { intros row t [<-|[<-|[]]]; simpl; [tauto|]. intros [<-|[]]. lia. }
  assert (Hbk0 : forall booking, In booking allBookings -> 0 <= Booking.createdAt booking).
  { intros booking [<-|[]]. simpl. lia. }
  pose proof (never_booked_gets_epoch c users 7 allBookings Sample.alice
                Hnd Ha Hrows Hnone Hatt Hrow0 Hbk0) as [Hma Hall].
  assert (Hmb : Sample.neverBookedDates 400 !! User.id Sample.bob = Some 400)
    by reflexivity.
  destruct (Hall Sample.bob 400 Hb Hmb) as [_ Hlater].
  destruct (Hlater ltac:(lia)) as [Hcmp Hprec].
  split; [exact Hma|]. split; [exact Hmb|]. split; [apply Hcmp | exact Hprec].
Defined.

(** ** Determinism *)

Lemma sort_insert_deterministic {A : Type} (cmp1 cmp2 : A -> A -> nat -> Z * nat)
    (x : A) (l : list A) (n1 n2 : nat) :
  (forall y k1 k2, In y l -> fst (cmp1 x y k1) = fst (cmp2 x y k2)) ->
  fst (sort_insert cmp1 x l n1) = fst (sort_insert cmp2 x l n2).
Proof.
  revert n1 n2. induction l as [|y l IH]; intros n1 n2 Hdet; simpl; [reflexivity|].
  pose proof (Hdet y n1 n2 (or_introl eq_refl)) as Hy.
  destruct (cmp1 x y n1) as [r1 k1], (cmp2 x y n2) as [r2 k2]. simpl in Hy. subst r2.
  destruct (0 <? r1); [|reflexivity].
  specialize (IH k1 k2 (fun z j1 j2 Hz => Hdet z j1 j2 (or_intror Hz))).
  destruct (sort_insert cmp1 x l k1), (sort_insert cmp2 x l k2). simpl in *.
  now rewrite IH.
Qed.

Lemma Array_sort_deterministic {A : Type} (cmp1 cmp2 : A -> A -> nat -> Z * nat)
    (key : A -> option Z) (l : list A) (n1 n2 : nat) :
  (forall x y k1 k2, In x l -> In y l -> key x <> key y ->
                     fst (cmp1 x y k1) = fst (cmp2 x y k2)) ->
  List.NoDup (map key l) ->
  fst (Array_sort cmp1 l n1) = fst (Array_sort cmp2 l n2).
Proof.
  induction l as [|x l IH]; intros Hdet Hnd; simpl; [reflexivity|].
  inversion Hnd as [|? ? Hnotin Hnd']; subst.
  assert (IH' : fst (Array_sort cmp1 l n1) = fst (Array_sort cmp2 l n2)).
  { apply IH; [|exact Hnd']. intros a b k1 k2 Ha Hb. apply Hdet; now right. }
  pose proof (Array_sort_perm cmp1 l n1) as Hperm.
  destruct (Array_sort cmp1 l n1) as [s1 k1], (Array_sort cmp2 l n2) as [s2 k2].
  simpl in *. subst s2.
  apply sort_insert_deterministic. intros y j1 j2 Hy.
  assert (Hyl : In y l) by (now apply (Permutation_in y (Permutation_sym Hperm))).
  apply Hdet; [now left | now right |].
  intros Heq. apply Hnotin. rewrite Heq. now apply in_map.
Qed.

(** C9: two runs on the same inputs that differ only by the random draws
    choose the same host when the candidates of the recency stage all have
    a merged date and no two of these dates are equal. *)
Theorem pipeline_deterministic_without_ties (c : Collaborators)
    (draws1 draws2 : nat -> bool) (distributionAlgorithm : string)
    (p : GetLuckyUserParams) :
  noTimestampTies
    (userIdAndAtCreatedPair c (highestPriorityUsers p (fetchAllBookings c p))
                            (EventType.id (eventType p)) (fetchAllBookings c p))
    (highestPriorityUsers p (fetchAllBookings c p)) ->
  getLuckyUser (withRandom c draws1) distributionAlgorithm p
  = getLuckyUser (withRandom c draws2) distributionAlgorithm p.
Proof.
  intros [Hsome Hnd]. unfold getLuckyUser.
  destruct (length (availableUsers p) =? 1)%nat; [reflexivity|].
  destruct (String.eqb distributionAlgorithm "MAXIMIZE_AVAILABILITY"); [|reflexivity].
  change (fetchAllBookings (withRandom c draws1) p) with (fetchAllBookings c p).
  change (fetchAllBookings (withRandom c draws2) p) with (fetchAllBookings c p).
  unfold leastRecentlyBookedUser. simpl.
  set (users := highestPriorityUsers p (fetchAllBookings c p)) in *.
  change (userIdAndAtCreatedPair (withRandom c draws1) users
            (EventType.id (eventType p)) (fetchAllBookings c p))
    with (userIdAndAtCreatedPair c users (EventType.id (eventType p))
            (fetchAllBookings c p)).
  change (userIdAndAtCreatedPair (withRandom c draws2) users
            (EventType.id (eventType p)) (fetchAllBookings c p))
    with (userIdAndAtCreatedPair c users (EventType.id (eventType p))
            (fetchAllBookings c p)).
  set (m := userIdAndAtCreatedPair c users _ _) in *.
  do 2 f_equal.
  apply (Array_sort_deterministic _ _ (fun user => m !! User.id user)); [|exact Hnd].
  intros x y k1 k2 Hx Hy Hne.
  rewrite List.Forall_forall in Hsome.
  destruct (Hsome x Hx) as [tx Htx], (Hsome y Hy) as [ty Hty].
  assert (Hneq : tx <> ty) by congruence.
  rewrite (compareByRecency_no_tie _ m x y k1 tx ty Htx Hty Hneq).
  now rewrite (compareByRecency_no_tie _ m x y k2 tx ty Htx Hty Hneq).
Qed.

Lemma pipeline_deterministic_without_ties_witness :
  noTimestampTies
    (userIdAndAtCreatedPair Sample.world
       (highestPriorityUsers Sample.unweighted (fetchAllBookings Sample.world Sample.unweighted))
       (EventType.id (eventType Sample.unweighted))
       (fetchAllBookings Sample.world Sample.unweighted))
    (highestPriorityUsers Sample.unweighted (fetchAllBookings Sample.world Sample.unweighted))
  /\ getLuckyUser (withRandom Sample.world (fun _ => true)) "MAXIMIZE_AVAILABILITY"
       Sample.unweighted
     = getLuckyUser (withRandom Sample.world (fun _ => false)) "MAXIMIZE_AVAILABILITY"
         Sample.unweighted.
Proof.
  assert (H : noTimestampTies
                (userIdAndAtCreatedPair Sample.world
                   (highestPriorityUsers Sample.unweighted
                      (fetchAllBookings Sample.world Sample.unweighted))
                   (EventType.id (eventType Sample.unweighted))
                   (fetchAllBookings Sample.world Sample.unweighted))
                (highestPriorityUsers Sample.unweighted
                   (fetchAllBookings Sample.world Sample.unweighted))).
  { split.
    - repeat constructor; vm_compute; eauto.
    - vm_compute. repeat constructor; simpl; intuition discriminate. }
  split; [exact H|].
  exact (pipeline_deterministic_without_ties Sample.world (fun _ => true)
           (fun _ => false) "MAXIMIZE_AVAILABILITY" Sample.unweighted H).
Defined.

(** ** Candidate sets along the pipeline *)

Lemma getUsersBasedOnWeights_incl (p : GetLuckyUserParams) (allBookings : list Booking.t) :
  incl (getUsersBasedOnWeights p allBookings) (availableUsers p).
Proof. intros u Hu. unfold getUsersBasedOnWeights in Hu. now apply filter_In in Hu. Qed.

Lemma getUsersBasedOnWeights_nonempty (p : GetLuckyUserParams)
    (allBookings : list Booking.t) :
  rosterWeight (allRRHosts p) <> 0 -> availableUsers p <> [] ->
  getUsersBasedOnWeights p allBookings <> [].
Proof.
  intros Hw Hne. destruct p as [l et hosts]. simpl in *.
  destruct (Math_max_Fin (map (shortfall hosts allBookings) l)) as (m & Hm & Hin & _).
  { destruct l; [congruence|discriminate]. }
  apply in_map_iff in Hin. destruct Hin as (w & Hw' & Hwl).
  assert (Hin : In w (getUsersBasedOnWeights (mkParams l et hosts) allBookings)).
  { unfold getUsersBasedOnWeights. simpl.
    rewrite (filter_decorated (bookingShortfall hosts allBookings) User.id
               (fun x => num_eqb x _)).
    apply filter_In. split; [exact Hwl|].
    apply bool_decide_eq_true. rewrite elem_of_list_to_set, list_elem_of_In.
    apply in_map, filter_In. split; [exact Hwl|].
    rewrite map_map. simpl.
    rewrite (map_ext _ (fun u => Fin (shortfall hosts allBookings u)))
      by (intros u; now apply bookingShortfall_finite).
    rewrite <- (map_map (shortfall hosts allBookings) Fin), Hm.
    rewrite bookingShortfall_finite by exact Hw. simpl.
    apply Qeq_bool_iff. rewrite Hw'. reflexivity. }
  intros Hnil. rewrite Hnil in Hin. exact Hin.
Qed.

(** X9: outside the division by a zero roster weight the candidate sets
    shrink without emptying and the chosen host is an available user. *)
Lemma pipeline_candidates_nonempty (c : Collaborators) (p : GetLuckyUserParams) :
  availableUsers p <> [] ->
  EventType.isRRWeightsEnabled (eventType p) = false \/ rosterWeight (allRRHosts p) <> 0 ->
  incl (possibleLuckyUsers p (fetchAllBookings c p)) (availableUsers p)
  /\ possibleLuckyUsers p (fetchAllBookings c p) <> []
  /\ incl (highestPriorityUsers p (fetchAllBookings c p))
          (possibleLuckyUsers p (fetchAllBookings c p))
  /\ highestPriorityUsers p (fetchAllBookings c p) <> []
  /\ exists user,
       getLuckyUser c "MAXIMIZE_AVAILABILITY" p = Return (Some user)
       /\ In user (availableUsers p)
       /\ (length (availableUsers p) <> 1%nat ->
           In user (highestPriorityUsers p (fetchAllBookings c p))).
Proof.
  intros Hne Hcase. set (bs := fetchAllBookings c p).
  assert (H1 : incl (possibleLuckyUsers p bs) (availableUsers p)).
  { unfold possibleLuckyUsers. destruct (EventType.isRRWeightsEnabled (eventType p)).
    - apply getUsersBasedOnWeights_incl.
    - apply incl_refl. }
  assert (H2 : possibleLuckyUsers p bs <> []).
  { unfold possibleLuckyUsers.
    destruct (EventType.isRRWeightsEnabled (eventType p)); [|exact Hne].
    destruct Hcase as [Hoff|Hw]; [discriminate|].
    now apply getUsersBasedOnWeights_nonempty. }
  assert (H3 : incl (highestPriorityUsers p bs) (possibleLuckyUsers p bs)).
  { intros u Hu. unfold highestPriorityUsers, getUsersWithHighestPriority in Hu.
    now apply filter_In in Hu. }
  assert (H4 : highestPriorityUsers p bs <> []).
  { unfold highestPriorityUsers. intros Hnil.
    apply getUsersWithHighestPriority_nonempty in Hnil. contradiction. }
  repeat (split; [assumption|]).
  unfold getLuckyUser.
  destruct (Nat.eqb_spec (length (availableUsers p)) 1) as [Hone|Hmany].
  - destruct (availableUsers p) as [|u l] eqn:El; [discriminate|].
    exists u. split; [reflexivity|]. split; [now left|]. intros; contradiction.
  - simpl. unfold leastRecentlyBookedUser. simpl. fold bs.
    destruct (Array_sort_head_some
                (compareByRecency c
                   (userIdAndAtCreatedPair c (highestPriorityUsers p bs)
                      (EventType.id (eventType p)) bs))
                (highestPriorityUsers p bs) O H4) as [u Hu].
    exists u. rewrite Hu. split; [reflexivity|].
    apply Array_sort_head_in in Hu. split; [|intros _; exact Hu].
    apply H1, H3, Hu.
Qed.

(** C1 at a roster whose weights are all zero, weighting enabled: every
    shortfall is NaN, no candidate equals the maximum, the shortfall filter
    hands on the empty set and no host is chosen, although two users are
    available. *)
Theorem zero_roster_weight_empties_candidates :
  availableUsers Sample.zeroWeight = [Sample.idleAlice; Sample.idleBob]
  /\ totalWeight (allRRHosts Sample.zeroWeight) = 0
  /\ map (bookingShortfall (allRRHosts Sample.zeroWeight)
                           (fetchAllBookings Sample.world Sample.zeroWeight))
         (availableUsers Sample.zeroWeight) = [NaN; NaN]
  /\ possibleLuckyUsers Sample.zeroWeight
       (fetchAllBookings Sample.world Sample.zeroWeight) = []
  /\ highestPriorityUsers Sample.zeroWeight
       (fetchAllBookings Sample.world Sample.zeroWeight) = []
  /\ getLuckyUser Sample.world "MAXIMIZE_AVAILABILITY" Sample.zeroWeight = Return None.
Proof. repeat split; reflexivity. Qed.

(** ** The chosen candidate *)

(** When every candidate has a merged date, the candidate the recency stage
    returns has the least merged date, whatever the random draws. *)
Lemma least_recently_booked_is_minimum (c : Collaborators) (m : gmap Z Z)
    (users : list User.t) (n : nat) :
  Forall (fun user => is_Some (m !! User.id user)) users ->
  users <> [] ->
  exists chosen,
    hd_error (fst (Array_sort (compareByRecency c m) users n)) = Some chosen
    /\ In chosen users
    /\ forall other, In other users -> recencyKey m chosen <= recencyKey m other.
Proof.
  intros Hsome Hne.
  pose proof (sort_by_recency_sorted c m users n Hsome) as Hsorted.
  pose proof (Array_sort_perm (compareByRecency c m) users n) as Hperm.
  destruct (Array_sort_head_some (compareByRecency c m) users n Hne) as [chosen Hhd].
  exists chosen. split; [exact Hhd|]. split; [now apply Array_sort_head_in in Hhd|].
  intros other Hother. apply (Permutation_in other Hperm) in Hother.
  destruct (fst (Array_sort (compareByRecency c m) users n)) as [|x s]; [discriminate|].
  injection Hhd as ->. inversion Hsorted as [|? ? _ Hall]; subst.
  destruct Hother as [<-|Hother]; [lia|].
  rewrite List.Forall_forall in Hall. now apply Hall.
Qed.

(** Scenario B of the specification: of two candidates of equal priority,
    the one never booked is chosen over the one with an organizer booking. *)
Example scenario_B_never_booked_is_chosen :
  getLuckyUser (Sample.neverBookedWorld 100) "MAXIMIZE_AVAILABILITY"
    Sample.neverBookedParams = Return (Some Sample.alice).
Proof. reflexivity. Qed.

(** Scenario C of the specification: weights 200 and 100, one and three of
    the four historical bookings; the shortfalls are 5/3 and -5/3 and the
    host of weight 200 survives the shortfall filter. *)
Example scenario_C_shortfall_favours_the_heavier_host :
  Qeq (exactShortfall Sample.roster Sample.history Sample.alice) (5 # 3)
  /\ Qeq (exactShortfall Sample.roster Sample.history Sample.bob) (- 5 # 3)
  /\ getUsersBasedOnWeights Sample.weighted Sample.history = [Sample.alice].
Proof. repeat split; vm_compute; reflexivity. Qed.


(** * Further properties of the selection pipeline *)

(** ** Priority filter *)

Lemma filter_all_true {A : Type} (f : A -> bool) (l : list A) :
  (forall x, In x l -> f x = true) -> List.filter f l = l.
Proof.
  induction l as [|x l IH]; intros H; simpl; [reflexivity|].
  rewrite (H x) by (now left). f_equal. apply IH. intros y Hy. apply H. now right.
Qed.

(** X1: filtering by priority twice is filtering once: the survivors all sit
    on the highest tier, so a second pass keeps every one of them. *)
Theorem priority_filter_idempotent (l : list User.t) :
  getUsersWithHighestPriority (getUsersWithHighestPriority l)
  = getUsersWithHighestPriority l.
Proof.
  rewrite (getUsersWithHighestPriority_spec (getUsersWithHighestPriority l)).
  apply filter_all_true. intros u Hu.
  unfold isHighestPriority. apply forallb_forall. intros v Hv.
  rewrite getUsersWithHighestPriority_spec in Hu, Hv.
  apply filter_In in Hu. destruct Hu as [_ Hu].
  apply filter_In in Hv. destruct Hv as [Hv _].
  unfold isHighestPriority in Hu. rewrite forallb_forall in Hu. now apply Hu.
Qed.

(** ** Shortfall filter at a zero roster weight *)

Lemma fold_num_max_NaN (l : list num) (acc : num) :
  acc = NaN \/ In NaN l -> fold_left num_max l acc = NaN.
Proof.
  revert acc. induction l as [|x l IH]; intros acc [Hacc|Hin]; simpl.
  - exact Hacc.
  - contradiction.
  - apply IH. left. subst acc. reflexivity.
  - apply IH. destruct Hin as [->|Hin]; [left|now right].
    now destruct acc as [|[]|].
Qed.

Lemma Math_max_NaN (l : list num) : In NaN l -> Math_max l = NaN.
Proof. intros H. apply fold_num_max_NaN. now right. Qed.

Lemma num_eqb_NaN_r (x : num) : num_eqb x NaN = false.
Proof. now destruct x. Qed.

Lemma filter_all_false {A : Type} (f : A -> bool) (l : list A) :
  (forall x, In x l -> f x = false) -> List.filter f l = [].
Proof.
  induction l as [|x l IH]; intros H; simpl; [reflexivity|].
  rewrite (H x) by (now left). apply IH. intros y Hy. apply H. now right.
Qed.

Lemma bookingShortfall_NaN (hosts : list Host.t) (allBookings : list Booking.t)
    (user : User.t) :
  totalWeight hosts = 0 ->
  Z.of_nat (length allBookings) + allWeightAdjustments hosts = 0
  \/ User.weight user ?? 100 = 0 ->
  bookingShortfall hosts allBookings user = NaN.
Proof.
  intros Hzero Hcase. unfold bookingShortfall. rewrite Hzero.
  unfold of_Z, num_div. change 0%Q with (inject_Z 0). rewrite !Qeq_bool_inject_Z.
  simpl (0 =? 0).
  destruct (Z.eqb_spec (User.weight user ?? 100) 0) as [Hw|Hw]; [reflexivity|].
  destruct Hcase as [Hcount|Hw0]; [|contradiction].
  rewrite Hcount. reflexivity.
Qed.

(** X2: with a total roster weight of zero, the shortfall filter returns no
    candidate at all as soon as one candidate has weight 0, or when the
    historical bookings and the roster adjustments sum to zero: that
    shortfall is NaN, which makes the maximum NaN, and nothing equals NaN. *)
Theorem zero_roster_weight_NaN_empties_filter (p : GetLuckyUserParams)
    (allBookings : list Booking.t) :
  totalWeight (allRRHosts p) = 0 ->
  Z.of_nat (length allBookings) + allWeightAdjustments (allRRHosts p) = 0
  \/ (exists user, In user (availableUsers p) /\ User.weight user ?? 100 = 0) ->
  getUsersBasedOnWeights p allBookings = [].
Proof.
  intros Hzero Hcase. unfold getUsersBasedOnWeights.
  destruct p as [l et hosts]. simpl in *.
  destruct l as [|u0 l0] eqn:El; [reflexivity|]. rewrite <- El in *.
  assert (Hnan : exists user, In user l
                              /\ bookingShortfall hosts allBookings user = NaN).
  { destruct Hcase as [Hcount|(user & Hin & Hw)].
    - exists u0. split; [subst l; now left|]. apply bookingShortfall_NaN; tauto.
    - exists user. split; [exact Hin|]. apply bookingShortfall_NaN; tauto. }
  destruct Hnan as (user & Hin & Hnan).
  rewrite map_map. simpl. rewrite Math_max_NaN.
  - rewrite (filter_all_false (fun us : User.t * num => num_eqb (snd us) NaN))
      by (intros; apply num_eqb_NaN_r).
    simpl. apply filter_all_false. intros x _.
    apply bool_decide_eq_false. apply not_elem_of_empty.
  - rewrite <- Hnan. now apply in_map.
Qed.

Lemma zero_roster_weight_NaN_empties_filter_witness :
  totalWeight (allRRHosts Sample.zeroWeight) = 0
  /\ (exists user, In user (availableUsers Sample.zeroWeight)
                   /\ User.weight user ?? 100 = 0)
  /\ getUsersBasedOnWeights Sample.zeroWeight Sample.history = [].
Proof.
  assert (Hz : totalWeight (allRRHosts Sample.zeroWeight) = 0) by reflexivity.
  assert (Hu : exists user, In user (availableUsers Sample.zeroWeight)
                            /\ User.weight user ?? 100 = 0).
  { exists Sample.idleAlice. split; [now left|reflexivity]. }
  split; [exact Hz|]. split; [exact Hu|].
  exact (zero_roster_weight_NaN_empties_filter Sample.zeroWeight Sample.history
           Hz (or_intror Hu)).
Defined.

Lemma bookingShortfall_infinite (hosts : list Host.t) (allBookings : list Booking.t)
    (user : User.t) :
  totalWeight hosts = 0 ->
  0 < Z.of_nat (length allBookings) + allWeightAdjustments hosts ->
  0 < User.weight user ?? 100 ->
  bookingShortfall hosts allBookings user = Inf false.
Proof.
  intros Hzero Hcount Hw. unfold bookingShortfall. rewrite Hzero.
  unfold of_Z, num_div. change 0%Q with (inject_Z 0). rewrite !Qeq_bool_inject_Z.
  simpl (0 =? 0).
  destruct (Z.eqb_spec (User.weight user ?? 100) 0) as [He|_]; [lia|].
  simpl Qnum.
  destruct (Z.ltb_spec (Z.sgn (User.weight user ?? 100)) 0) as [Hneg|_]; [lia|].
  unfold num_mul, num_sign. simpl Qnum.
  replace (Z.sgn (Z.of_nat (length allBookings) + allWeightAdjustments hosts)) with 1
    by lia.
  reflexivity.
Qed.

Lemma fold_num_max_PosInf (l : list num) (acc : num) :
  (acc = Inf false \/ acc = Inf true) ->
  Forall (fun x => x = Inf false) l -> l <> [] ->
  fold_left num_max l acc = Inf false.
Proof.
  revert acc. induction l as [|x l IH]; intros acc Hacc Hall Hne; [congruence|].
  inversion Hall as [|? ? -> Hall']; subst. simpl.
  assert (Hstep : num_max acc (Inf false) = Inf false)
    by (destruct Hacc as [->| ->]; reflexivity).
  rewrite Hstep. destruct l as [|y l]; [reflexivity|].
  apply IH; [now left | exact Hall' | discriminate].
Qed.

(** X3: with a total roster weight of zero, a positive sum of historical
    bookings and roster adjustments and positive candidate weights, every
    shortfall is +Infinity and the shortfall filter keeps every candidate. *)
Theorem zero_roster_weight_infinite_keeps_all (p : GetLuckyUserParams)
    (allBookings : list Booking.t) :
  totalWeight (allRRHosts p) = 0 ->
  0 < Z.of_nat (length allBookings) + allWeightAdjustments (allRRHosts p) ->
  (forall user, In user (availableUsers p) -> 0 < User.weight user ?? 100) ->
  getUsersBasedOnWeights p allBookings = availableUsers p.
Proof.
  intros Hzero Hcount Hpos. unfold getUsersBasedOnWeights.
  destruct p as [l et hosts]. simpl in *.
  destruct l as [|u0 l0] eqn:El; [reflexivity|]. rewrite <- El in *.
  rewrite (filter_decorated (bookingShortfall hosts allBookings) User.id
             (fun x => num_eqb x _)).
  rewrite map_map. simpl.
  assert (Hmax : Math_max (map (bookingShortfall hosts allBookings) l) = Inf false).
  { apply fold_num_max_PosInf; [now right| |subst l; discriminate].
    apply List.Forall_forall. intros x Hx. apply in_map_iff in Hx.
    destruct Hx as (u & <- & Hu). apply bookingShortfall_infinite; auto. }
  change (fun x : User.t => bookingShortfall hosts allBookings x)
    with (bookingShortfall hosts allBookings).
  rewrite Hmax.
  rewrite (filter_all_true (fun u => num_eqb (bookingShortfall hosts allBookings u)
                                             (Inf false))).
  - apply filter_all_true. intros u Hu. apply bool_decide_eq_true.
    rewrite elem_of_list_to_set, list_elem_of_In. now apply in_map.
  - intros u Hu. rewrite bookingShortfall_infinite; auto.
Qed.

Lemma zero_roster_weight_infinite_keeps_all_witness :
  totalWeight (allRRHosts Sample.zeroRoster) = 0
  /\ 0 < Z.of_nat (length Sample.history)
          + allWeightAdjustments (allRRHosts Sample.zeroRoster)
  /\ getUsersBasedOnWeights Sample.zeroRoster Sample.history
     = availableUsers Sample.zeroRoster.
Proof.
  assert (Hz : totalWeight (allRRHosts Sample.zeroRoster) = 0) by reflexivity.
  assert (Hc : 0 < Z.of_nat (length Sample.history)
                   + allWeightAdjustments (allRRHosts Sample.zeroRoster))
    by (vm_compute; reflexivity).
  assert (Hp : forall user, In user (availableUsers Sample.zeroRoster) ->
                            0 < User.weight user ?? 100).
  { intros user [<-|[<-|[]]]; vm_compute; reflexivity. }
  split; [exact Hz|]. split; [exact Hc|].
  exact (zero_roster_weight_infinite_keeps_all Sample.zeroRoster Sample.history
           Hz Hc Hp).
Defined.

(** ** Shortfall filter among equally weighted candidates *)

Lemma shortfall_order_equal_weights (hosts : list Host.t) (allBookings : list Booking.t)
    (u v : User.t) :
  User.weight u ?? 100 = User.weight v ?? 100 ->
  User.weightAdjustment u ?? 0 = User.weightAdjustment v ?? 0 ->
  historicalBookingCount allBookings u <= historicalBookingCount allBookings v ->
  Qle (shortfall hosts allBookings v) (shortfall hosts allBookings u).
Proof.
  intros Hw Ha Hcount. unfold shortfall. cbv zeta. rewrite Hw, Ha.
  apply round_double_le. rewrite !inject_Z_plus. rewrite Zle_Qle in Hcount.
  generalize dependent (inject_Z (historicalBookingCount allBookings u)).
  generalize dependent (inject_Z (historicalBookingCount allBookings v)).
  intros cv cu Hcount. lra.
Qed.

(** X4: with a non-zero roster weight, when the candidates all have the same
    weight and the same adjustment, the shortfall filter keeps every
    candidate that took part in the fewest historical bookings: rounding to
    the nearest double is monotone, so no candidate has a larger shortfall.
    (It may keep others as well, when rounding merges their shortfalls.) *)
Theorem equal_weights_keep_the_least_booked (p : GetLuckyUserParams)
    (allBookings : list Booking.t) (user : User.t) :
  List.NoDup (map User.id (availableUsers p)) ->
  rosterWeight (allRRHosts p) <> 0 ->
  (forall u v, In u (availableUsers p) -> In v (availableUsers p) ->
     User.weight u ?? 100 = User.weight v ?? 100
     /\ User.weightAdjustment u ?? 0 = User.weightAdjustment v ?? 0) ->
  In user (availableUsers p) ->
  hasFewestBookings allBookings (availableUsers p) user = true ->
  In user (getUsersBasedOnWeights p allBookings).
Proof.
  intros Hnd Hw Heq Hin Hfew. rewrite getUsersBasedOnWeights_spec by assumption.
  apply filter_In. split; [exact Hin|].
  unfold hasMaxShortfall. apply forallb_forall. intros v Hv.
  apply Qle_bool_iff.
  destruct (Heq user v Hin Hv) as [H1 H2].
  apply shortfall_order_equal_weights; [exact H1 | exact H2 |].
  unfold hasFewestBookings in Hfew. rewrite forallb_forall in Hfew.
  apply Z.leb_le. now apply Hfew.
Qed.

Lemma equal_weights_keep_the_least_booked_witness :
  hasFewestBookings Sample.history (availableUsers Sample.evenRoster) Sample.plainAlice
  = true
  /\ In Sample.plainAlice (getUsersBasedOnWeights Sample.evenRoster Sample.history).
Proof.
  assert (Hfew : hasFewestBookings Sample.history (availableUsers Sample.evenRoster)
                   Sample.plainAlice = true) by reflexivity.
  split; [exact Hfew|].
  apply (equal_weights_keep_the_least_booked Sample.evenRoster Sample.history
           Sample.plainAlice).
  - simpl. repeat constructor; simpl; intuition discriminate.
  - vm_compute. discriminate.
  - intros u v [<-|[<-|[]]] [<-|[<-|[]]]; split; reflexivity.
  - now left.
  - exact Hfew.
Defined.

(** Rounding can merge shortfalls that differ in exact arithmetic: here the
    target is 2^62 - 2^31 and one booking is below the spacing of the
    doubles, so the candidate with one booking is kept with the one that has
    none. *)
Example equal_weights_rounding_keeps_both :
  hasFewestBookings Sample.hugeHistory (availableUsers Sample.huge) Sample.hugeGrace
  = false
  /\ getUsersBasedOnWeights Sample.huge Sample.hugeHistory
     = [Sample.hugeFrank; Sample.hugeGrace].
Proof. split; vm_compute; reflexivity. Qed.

(** ** Recency maps: what they hold *)

Lemma find_app_first {A : Type} (f : A -> bool) (before after : list A) (x : A) :
  (forall y, In y before -> f y = false) -> f x = true ->
  List.find f (before ++ x :: after) = Some x.
Proof.
  intros Hbefore Hx. induction before as [|y before IH]; simpl.
  - now rewrite Hx.
  - rewrite (Hbefore y) by (now left). apply IH. intros z Hz. apply Hbefore. now right.
Qed.

(** X5: in the attendee map the first match wins: the date recorded for a
    candidate is the creation time of the first booking of the list that
    lists the candidate's email and is not older than the candidate's
    organizer date; the bookings that follow never replace it. *)
Theorem attendee_map_first_match_wins (users : list User.t) (organizer : gmap Z Z)
    (before after : list Booking.t) (booking : Booking.t) (user : User.t) :
  List.NoDup (map User.id users) ->
  In user users ->
  (forall earlier, In earlier before ->
     attendeeAccepts (organizer !! User.id user) user earlier = false) ->
  attendeeAccepts (organizer !! User.id user) user booking = true ->
  attendeeUserIdAndAtCreatedPair users organizer (before ++ booking :: after)
    !! User.id user = Some (Booking.createdAt booking).
Proof.
  intros Hnd Hin Hbefore Hacc.
  rewrite attendee_lookup by assumption.
  now rewrite (find_app_first _ before after booking Hbefore Hacc).
Qed.

Lemma attendee_map_first_match_wins_witness :
  attendeeUserIdAndAtCreatedPair [Sample.alice; Sample.bob] {[1 := 200; 2 := 500]}
    ([Sample.mkBooking 26 600 (Some 2) ["guest@example.com"]]
     ++ Sample.mkBooking 25 500 (Some 2) ["alice@example.com"]
     :: [Sample.mkBooking 27 700 (Some 2) ["alice@example.com"]])
    !! User.id Sample.alice = Some 500.
Proof.
  apply (attendee_map_first_match_wins [Sample.alice; Sample.bob]
           {[1 := 200; 2 := 500]}
           [Sample.mkBooking 26 600 (Some 2) ["guest@example.com"]]
           [Sample.mkBooking 27 700 (Some 2) ["alice@example.com"]]
           (Sample.mkBooking 25 500 (Some 2) ["alice@example.com"]) Sample.alice).
  - simpl. repeat constructor; simpl; intuition discriminate.
  - now left.
  - intros earlier [<-|[]]. reflexivity.
  - reflexivity.
Defined.

(** X6: attendee history never moves a candidate earlier than the organizer
    date: whatever the order of the bookings, the merged date of a candidate
    that has an organizer date is at or after it. *)
Theorem merged_date_not_before_organizer_date (c : Collaborators) (users : list User.t)
    (eventTypeId : Z) (allBookings : list Booking.t) (user : User.t) (t0 : Z) :
  List.NoDup (map User.id users) ->
  In user users ->
  organizerIdAndAtCreatedPair (user_findMany c (map User.id users) eventTypeId)
    !! User.id user = Some t0 ->
  exists t, userIdAndAtCreatedPair c users eventTypeId allBookings !! User.id user = Some t
            /\ t0 <= t.
Proof.
  intros Hnd Hin Horg. unfold userIdAndAtCreatedPair.
  rewrite merged_lookup, attendee_lookup, Horg by assumption.
  destruct (List.find _ allBookings) as [b|] eqn:Hfind; simpl.
  - exists (Booking.createdAt b). split; [reflexivity|].
    apply find_some in Hfind. destruct Hfind as [_ Hacc].
    unfold attendeeAccepts, date_gt in Hacc.
    apply andb_true_iff in Hacc. destruct Hacc as [_ Hge].
    destruct (Z.ltb_spec (Booking.createdAt b) t0); [discriminate|lia].
  - exists t0. split; [reflexivity|lia].
Qed.

Lemma merged_date_not_before_organizer_date_witness :
  exists t, userIdAndAtCreatedPair Sample.attendedWorld [Sample.alice; Sample.bob] 7
              (rev Sample.attended) !! User.id Sample.alice = Some t
            /\ 200 <= t.
Proof.
  apply (merged_date_not_before_organizer_date Sample.attendedWorld
           [Sample.alice; Sample.bob] 7 (rev Sample.attended) Sample.alice 200).
  - simpl. repeat constructor; simpl; intuition discriminate.
  - now left.
  - reflexivity.
Defined.

Lemma attendeeVisit_provenance (organizer : gmap Z Z) (booking : Booking.t)
    (aggregate : gmap Z Z) (user : User.t) (k t : Z) :
  attendeeVisit organizer booking aggregate user !! k = Some t ->
  aggregate !! k = Some t
  \/ (User.id user = k /\ listsEmail user booking = true
      /\ t = Booking.createdAt booking).
Proof.
  unfold attendeeVisit, listsEmail.
  destruct (bool_decide _); [now left|].
  destruct (existsb _ _) eqn:Hlists; simpl; [|now left].
  destruct (date_gt _ _); [now left|].
  destruct (Z.eq_dec (User.id user) k) as [->|Hne].
  - rewrite lookup_insert_eq. intros [= <-]. right. tauto.
  - rewrite lookup_insert_ne by exact Hne. now left.
Qed.

Lemma attendeeForEach_provenance (users : list User.t) (organizer : gmap Z Z)
    (aggregate : gmap Z Z) (booking : Booking.t) (k t : Z) :
  attendeeForEach users organizer aggregate booking !! k = Some t ->
  aggregate !! k = Some t
  \/ exists user, In user users /\ User.id user = k
                  /\ listsEmail user booking = true
                  /\ t = Booking.createdAt booking.
Proof.
  unfold attendeeForEach. revert aggregate.
  induction users as [|v users IH]; intros aggregate H; simpl in *; [now left|].
  destruct (IH _ H) as [Hv|(user & Hin & Hrest)].
  - apply attendeeVisit_provenance in Hv. destruct Hv as [Hagg|Hv]; [now left|].
    right. exists v. split; [now left|exact Hv].
  - right. exists user. split; [now right|exact Hrest].
Qed.

Lemma attendee_provenance (users : list User.t) (organizer : gmap Z Z)
    (allBookings : list Booking.t) (k t : Z) :
  attendeeUserIdAndAtCreatedPair users organizer allBookings !! k = Some t ->
  exists user booking,
    In user users /\ In booking allBookings /\ User.id user = k
    /\ listsEmail user booking = true /\ t = Booking.createdAt booking.
Proof.
  unfold attendeeUserIdAndAtCreatedPair.
  assert (Hgen : forall aggregate,
             fold_left (attendeeForEach users organizer) allBookings aggregate !! k = Some t ->
             aggregate !! k = Some t
             \/ exists user booking,
                  In user users /\ In booking allBookings /\ User.id user = k
                  /\ listsEmail user booking = true /\ t = Booking.createdAt booking).
  { induction allBookings as [|b bs IH]; intros aggregate H; simpl in *; [now left|].
    destruct (IH _ H) as [Hb|(user & booking & Hu & Hb & Hrest)].
    - apply attendeeForEach_provenance in Hb.
      destruct Hb as [Hagg|(user & Hu & Hrest)]; [now left|].
      right. exists user, b. split; [exact Hu|]. split; [now left|exact Hrest].
    - right. exists user, booking. split; [exact Hu|]. split; [now right|exact Hrest]. }
  intros H. destruct (Hgen ∅ H) as [Hempty|Hex]; [|exact Hex].
  rewrite lookup_empty in Hempty. discriminate.
Qed.

(** X7: the merged map holds nothing but what it was given: every entry is
    either the date of a row of the user query under that row's id, or the
    creation time of a booking that lists the email of a candidate, under
    that candidate's id. *)
Theorem merged_dates_come_from_inputs (c : Collaborators) (users : list User.t)
    (eventTypeId : Z) (allBookings : list Booking.t) (k t : Z) :
  userIdAndAtCreatedPair c users eventTypeId allBookings !! k = Some t ->
  (exists row, In row (user_findMany c (map User.id users) eventTypeId)
               /\ Organizer.id row = k /\ t = organizerDate row)
  \/ (exists user booking,
        In user users /\ In booking allBookings /\ User.id user = k
        /\ listsEmail user booking = true /\ t = Booking.createdAt booking).
Proof.
  unfold userIdAndAtCreatedPair. rewrite merged_lookup.
  destruct (attendeeUserIdAndAtCreatedPair _ _ _ !! k) as [t'|] eqn:Hatt.
  - intros [= <-]. right. now apply attendee_provenance in Hatt.
  - intros Horg. left. now apply organizer_values.
Qed.

Lemma merged_dates_come_from_inputs_witness :
  userIdAndAtCreatedPair Sample.attendedWorld [Sample.alice; Sample.bob] 7
    Sample.attended !! 1 = Some 500
  /\ ((exists row, In row (user_findMany Sample.attendedWorld
                             (map User.id [Sample.alice; Sample.bob]) 7)
                   /\ Organizer.id row = 1 /\ 500 = organizerDate row)
      \/ (exists user booking,
            In user [Sample.alice; Sample.bob] /\ In booking Sample.attended
            /\ User.id user = 1 /\ listsEmail user booking = true
            /\ 500 = Booking.createdAt booking)).
Proof.
  assert (H : userIdAndAtCreatedPair Sample.attendedWorld [Sample.alice; Sample.bob] 7
                Sample.attended !! 1 = Some 500) by reflexivity.
  split; [exact H|].
  exact (merged_dates_come_from_inputs Sample.attendedWorld
           [Sample.alice; Sample.bob] 7 Sample.attended 1 500 H).
Defined.

(** ** The recency stage and the whole pipeline *)

(** X8: when the user query answers with a row for every candidate, the
    recency stage returns normally a candidate with a merged date that no
    other candidate's merged date precedes, whatever the random draws made
    on ties. *)
Theorem recency_stage_returns_least_recent (c : Collaborators) (p : GetLuckyUserParams)
    (allBookings : list Booking.t) :
  availableUsers p <> [] ->
  (forall user, In user (availableUsers p) ->
     exists row,
       In row (user_findMany c (map User.id (availableUsers p))
                             (EventType.id (eventType p)))
       /\ Organizer.id row = User.id user) ->
  exists chosen tc,
    leastRecentlyBookedUser c p allBookings = Return (Some chosen)
    /\ In chosen (availableUsers p)
    /\ userIdAndAtCreatedPair c (availableUsers p) (EventType.id (eventType p))
         allBookings !! User.id chosen = Some tc
    /\ forall other, In other (availableUsers p) ->
         exists t,
           userIdAndAtCreatedPair c (availableUsers p) (EventType.id (eventType p))
             allBookings !! User.id other = Some t
           /\ tc <= t.
Proof.
  intros Hne Hrows. unfold leastRecentlyBookedUser. simpl.
  set (m := userIdAndAtCreatedPair c (availableUsers p) (EventType.id (eventType p))
              allBookings).
  assert (Hsome : Forall (fun user => is_Some (m !! User.id user)) (availableUsers p)).
  { apply List.Forall_forall. intros user Hu. apply merged_is_Some. now apply Hrows. }
  destruct (least_recently_booked_is_minimum c m (availableUsers p) O Hsome Hne)
    as (chosen & Hhd & Hin & Hmin).
  rewrite List.Forall_forall in Hsome.
  destruct (Hsome chosen Hin) as [tc Htc].
  exists chosen, tc. rewrite Hhd. split; [reflexivity|]. split; [exact Hin|].
  split; [exact Htc|]. intros other Hother.
  destruct (Hsome other Hother) as [t Ht]. exists t. split; [exact Ht|].
  specialize (Hmin other Hother). unfold recencyKey in Hmin.
  rewrite Htc, Ht in Hmin. exact Hmin.
Qed.

Lemma recency_stage_returns_least_recent_witness :
  exists chosen tc,
    leastRecentlyBookedUser Sample.world Sample.unweighted Sample.history
    = Return (Some chosen)
    /\ In chosen (availableUsers Sample.unweighted)
    /\ userIdAndAtCreatedPair Sample.world (availableUsers Sample.unweighted)
         (EventType.id (eventType Sample.unweighted)) Sample.history
         !! User.id chosen = Some tc
    /\ forall other, In other (availableUsers Sample.unweighted) ->
         exists t,
           userIdAndAtCreatedPair Sample.world (availableUsers Sample.unweighted)
             (EventType.id (eventType Sample.unweighted)) Sample.history
             !! User.id other = Some t
           /\ tc <= t.
Proof.
  apply (recency_stage_returns_least_recent Sample.world Sample.unweighted
           Sample.history).
  - discriminate.
  - intros user [<-|[<-|[]]].
    + exists (Organizer.mk 1 [200]). split; [now left|reflexivity].
    + exists (Organizer.mk 2 [400]). split; [right; now left|reflexivity].
Defined.

Lemma pipeline_candidates_nonempty_witness :
  availableUsers Sample.weighted <> []
  /\ rosterWeight (allRRHosts Sample.weighted) <> 0
  /\ exists user,
       getLuckyUser Sample.world "MAXIMIZE_AVAILABILITY" Sample.weighted
       = Return (Some user)
       /\ In user (availableUsers Sample.weighted).
Proof.
  assert (Hne : availableUsers Sample.weighted <> []) by discriminate.
  assert (Hw : rosterWeight (allRRHosts Sample.weighted) <> 0)
    by (vm_compute; discriminate).
  split; [exact Hne|]. split; [exact Hw|].
  destruct (pipeline_candidates_nonempty Sample.world Sample.weighted Hne
              (or_intror Hw)) as (_ & _ & _ & _ & user & Hret & Hin & _).
  exists user. split; [exact Hret | exact Hin].
Defined.

Lemma getLuckyUser_chooses_from_last_stage (c : Collaborators) (p : GetLuckyUserParams) :
  highestPriorityUsers p (fetchAllBookings c p) <> [] ->
  length (availableUsers p) <> 1%nat ->
  exists chosen,
    getLuckyUser c "MAXIMIZE_AVAILABILITY" p = Return (Some chosen)
    /\ In chosen (highestPriorityUsers p (fetchAllBookings c p)).
Proof.
  intros Hne Hlen. unfold getLuckyUser.
  destruct (Nat.eqb_spec (length (availableUsers p)) 1) as [He|_]; [contradiction|].
  simpl. unfold leastRecentlyBookedUser. simpl.
  destruct (Array_sort_head_some
              (compareByRecency c
                 (userIdAndAtCreatedPair c (highestPriorityUsers p (fetchAllBookings c p))
                    (EventType.id (eventType p)) (fetchAllBookings c p)))
              (highestPriorityUsers p (fetchAllBookings c p)) O Hne) as [u Hu].
  exists u. rewrite Hu. split; [reflexivity|]. now apply Array_sort_head_in in Hu.
Qed.

(** X10: the host chosen by MAXIMIZE_AVAILABILITY passes every stage's test:
    it is an available user, with weighting enabled (non-zero roster weight,
    distinct ids) no available user has a larger shortfall, the shortfalls
    being the doubles the program computes, and no candidate handed to the
    priority filter has a higher effective priority. *)
Theorem chosen_host_passes_every_stage (c : Collaborators) (p : GetLuckyUserParams) :
  availableUsers p <> [] ->
  EventType.isRRWeightsEnabled (eventType p) = false
  \/ (rosterWeight (allRRHosts p) <> 0 /\ List.NoDup (map User.id (availableUsers p))) ->
  exists chosen,
    getLuckyUser c "MAXIMIZE_AVAILABILITY" p = Return (Some chosen)
    /\ In chosen (availableUsers p)
    /\ (EventType.isRRWeightsEnabled (eventType p) = true ->
        hasMaxShortfall (allRRHosts p) (fetchAllBookings c p) (availableUsers p) chosen
        = true)
    /\ (forall other, In other (possibleLuckyUsers p (fetchAllBookings c p)) ->
          effectivePriority other <= effectivePriority chosen).
Proof.
  intros Hne Hcase. set (bs := fetchAllBookings c p).
  assert (Hincl : incl (possibleLuckyUsers p bs) (availableUsers p)).
  { unfold possibleLuckyUsers. destruct (EventType.isRRWeightsEnabled (eventType p)).
    - apply getUsersBasedOnWeights_incl.
    - apply incl_refl. }
  destruct (Nat.eq_dec (length (availableUsers p)) 1%nat) as [Hone|Hmany].
  - destruct (availableUsers p) as [|u [|v l]] eqn:El; try discriminate.
    exists u. unfold getLuckyUser. rewrite El. simpl.
    split; [reflexivity|]. split; [now left|]. split.
    + intros _. unfold hasMaxShortfall. simpl. rewrite andb_true_r.
      apply Qle_bool_iff, Qle_refl.
    + intros other Hother. apply Hincl in Hother.
      destruct Hother as [<-|[]]. lia.
  - assert (Hposs : possibleLuckyUsers p bs <> []).
    { unfold possibleLuckyUsers.
      destruct (EventType.isRRWeightsEnabled (eventType p)); [|exact Hne].
      destruct Hcase as [Hoff|[Hw _]]; [discriminate|].
      now apply getUsersBasedOnWeights_nonempty. }
    assert (Hlast : highestPriorityUsers p bs <> []).
    { unfold highestPriorityUsers. intros Hnil.
      apply getUsersWithHighestPriority_nonempty in Hnil. contradiction. }
    destruct (getLuckyUser_chooses_from_last_stage c p Hlast Hmany)
      as (chosen & Hret & Hin).
    fold bs in Hin. unfold highestPriorityUsers in Hin.
    rewrite getUsersWithHighestPriority_spec in Hin.
    apply filter_In in Hin. destruct Hin as [Hin Hhigh].
    exists chosen. split; [exact Hret|]. split; [now apply Hincl|]. split.
    + intros Hon. destruct Hcase as [Hoff|[Hw Hnd]]; [congruence|].
      unfold possibleLuckyUsers in Hin. rewrite Hon in Hin.
      rewrite getUsersBasedOnWeights_spec in Hin by assumption.
      apply filter_In in Hin. tauto.
    + intros other Hother. unfold isHighestPriority in Hhigh.
      rewrite forallb_forall in Hhigh. apply Z.leb_le. now apply Hhigh.
Qed.

Lemma chosen_host_passes_every_stage_witness :
  exists chosen,
    getLuckyUser Sample.world "MAXIMIZE_AVAILABILITY" Sample.weighted
    = Return (Some chosen)
    /\ In chosen (availableUsers Sample.weighted)
    /\ (EventType.isRRWeightsEnabled (eventType Sample.weighted) = true ->
        hasMaxShortfall (allRRHosts Sample.weighted)
          (fetchAllBookings Sample.world Sample.weighted)
          (availableUsers Sample.weighted) chosen = true)
    /\ (forall other,
          In other (possibleLuckyUsers Sample.weighted
                      (fetchAllBookings Sample.world Sample.weighted)) ->
          effectivePriority other <= effectivePriority chosen).
Proof.
  apply (chosen_host_passes_every_stage Sample.world Sample.weighted).
  - discriminate.
  - right. split.
    + vm_compute. discriminate.
    + simpl. repeat constructor; simpl; intuition discriminate.
Defined.

(** ** A candidate the user query does not return *)

(** X14: a candidate for whom the user query returns no row and whom no
    booking lists among its attendees has no merged date; every comparison
    of the sort that involves this candidate is then decided by a random
    draw, whatever the date of the other candidate. *)
Theorem candidate_without_row_is_ordered_at_random (c : Collaborators)
    (users : list User.t) (eventTypeId : Z) (allBookings : list Booking.t)
    (a : User.t) :
  List.NoDup (map User.id users) ->
  In a users ->
  (forall row, In row (user_findMany c (map User.id users) eventTypeId) ->
     Organizer.id row <> User.id a) ->
  (forall booking, In booking allBookings -> listsEmail a booking = false) ->
  userIdAndAtCreatedPair c users eventTypeId allBookings !! User.id a = None
  /\ forall b n,
       compareByRecency c (userIdAndAtCreatedPair c users eventTypeId allBookings) a b n
       = (if random_gt_half c n then 1 else -1, S n)
       /\ compareByRecency c (userIdAndAtCreatedPair c users eventTypeId allBookings) b a n
          = (if random_gt_half c n then 1 else -1, S n).
Proof.
  intros Hnd Ha Hrows Hatt.
  assert (Hnone : userIdAndAtCreatedPair c users eventTypeId allBookings
                    !! User.id a = None).
  { unfold userIdAndAtCreatedPair. rewrite merged_lookup, attendee_lookup by assumption.
    rewrite find_none_all.
    - simpl.
      destruct (organizerIdAndAtCreatedPair _ !! User.id a) as [t|] eqn:Horg;
        [|reflexivity].
      apply organizer_values in Horg. destruct Horg as (row & Hin & Hid & _).
      exfalso. now apply (Hrows row Hin).
    - intros booking Hin. unfold attendeeAccepts. now rewrite (Hatt booking Hin). }
  split; [exact Hnone|]. intros b n.
  unfold compareByRecency, date_lt, date_gt. rewrite Hnone.
  destruct (userIdAndAtCreatedPair c users eventTypeId allBookings !! User.id b);
    split; reflexivity.
Qed.

Lemma candidate_without_row_is_ordered_at_random_witness :
  userIdAndAtCreatedPair
    (Sample.collaborators Sample.history [Organizer.mk 2 [400]] (fun _ => false))
    [Sample.alice; Sample.bob] 7 Sample.history !! User.id Sample.alice = None
  /\ compareByRecency
       (Sample.collaborators Sample.history [Organizer.mk 2 [400]] (fun _ => false))
       (userIdAndAtCreatedPair
          (Sample.collaborators Sample.history [Organizer.mk 2 [400]] (fun _ => false))
          [Sample.alice; Sample.bob] 7 Sample.history)
       Sample.alice Sample.bob O = (-1, 1%nat).
Proof.
  destruct (candidate_without_row_is_ordered_at_random
              (Sample.collaborators Sample.history [Organizer.mk 2 [400]] (fun _ => false))
              [Sample.alice; Sample.bob] 7 Sample.history Sample.alice)
    as [Hnone Hcmp].
  - simpl. repeat constructor; simpl; intuition discriminate.
  - now left.
  - intros row [<-|[]]. discriminate.
  - intros booking [<-|[<-|[<-|[<-|[]]]]]; reflexivity.
  - split; [exact Hnone|]. exact (proj1 (Hcmp Sample.bob O)).
Defined.

(** * Properties of the access checks of [assignUserToAttributeHandler] *)

(** A duplicate-free list included in a list of the same length is a
    rearrangement of it, and that list has no duplicate either. *)
Lemma same_length_incl_NoDup {A : Type} (found requested : list A) :
  List.NoDup found -> incl found requested -> length found = length requested ->
  Permutation found requested /\ List.NoDup requested.
Proof.
  intros Hnd Hincl Hlen.
  assert (Hperm : Permutation found requested).
  { apply NoDup_Permutation_bis; [exact Hnd | lia | exact Hincl]. }
  split; [exact Hperm|]. now apply (Permutation_NoDup Hperm).
Qed.

Section HandlerFacts.
Context {Value : Type} (truthy : Value -> bool).

(** X11: the promise resolves only for an authorized request.  Provided the
    attribute query answers with rows of distinct ids taken among the
    requested ids, a resolved call means: the caller's organization has a
    non-zero id and the caller is its admin, the attributes sent with a
    value or options have pairwise distinct ids and each was returned by the
    query, every option of these attributes was returned by the option
    query, and the target user has a membership in the organization. *)
Theorem handler_resolves_only_when_authorized (db : Attributes.Database)
    (input : Attributes.Input.t Value) (org : Attributes.Organization.t) :
  (forall orgId, Attributes.Organization.id org = Some orgId ->
     List.NoDup (map Attributes.AttributeRow.id
                     (Attributes.attribute_findMany db (Attributes.requestedIds truthy input) orgId))
     /\ incl (map Attributes.AttributeRow.id
                  (Attributes.attribute_findMany db (Attributes.requestedIds truthy input) orgId))
             (Attributes.requestedIds truthy input)) ->
  Attributes.assignUserToAttributeHandler truthy db input org = Attributes.Resolved tt ->
  exists orgId membership,
    Attributes.Organization.id org = Some orgId
    /\ orgId <> 0
    /\ Attributes.Organization.isOrgAdmin org = true
    /\ List.NoDup (Attributes.requestedIds truthy input)
    /\ Permutation
         (map Attributes.AttributeRow.id
              (Attributes.attribute_findMany db (Attributes.requestedIds truthy input) orgId))
         (Attributes.requestedIds truthy input)
    /\ length (Attributes.attributeOption_findMany db
                 (Attributes.dedupe
                    (Attributes.arrayOfAttributeOptionIds
                       (Attributes.attribute_findMany db (Attributes.requestedIds truthy input) orgId)))
                 orgId)
       = length (Attributes.dedupe
                   (Attributes.arrayOfAttributeOptionIds
                      (Attributes.attribute_findMany db (Attributes.requestedIds truthy input) orgId)))
    /\ Attributes.membership_findFirst db (Attributes.Input.userId input) orgId
       = Some membership.
Proof.
  intros Hcontract. unfold Attributes.assignUserToAttributeHandler.
  destruct (Attributes.Organization.id org) as [orgId|] eqn:Horg; [|discriminate].
  destruct (Z.eqb_spec orgId 0) as [Hz|Hnz]; [discriminate|].
  unfold Attributes.isOrgAdminOrThrow.
  destruct (Attributes.Organization.isOrgAdmin org) eqn:Hadmin; simpl; [|discriminate].
  fold (Attributes.requestedIds truthy input).
  destruct (Nat.eqb_spec
              (length (Attributes.attribute_findMany db (Attributes.requestedIds truthy input) orgId))
              (length (Attributes.filteredAttributes truthy input)))
    as [Hlen|_]; simpl; [|discriminate].
  destruct (Nat.eqb_spec
              (length (Attributes.attributeOption_findMany db
                         (Attributes.dedupe
                            (Attributes.arrayOfAttributeOptionIds
                               (Attributes.attribute_findMany db (Attributes.requestedIds truthy input) orgId)))
                         orgId))
              (length (Attributes.dedupe
                         (Attributes.arrayOfAttributeOptionIds
                            (Attributes.attribute_findMany db (Attributes.requestedIds truthy input) orgId)))))
    as [Hopts|_]; simpl; [|discriminate].
  destruct (Attributes.membership_findFirst db (Attributes.Input.userId input) orgId)
    as [membership|] eqn:Hmember; [|discriminate].
  intros _. exists orgId, membership.
  destruct (Hcontract orgId eq_refl) as [Hnd Hincl].
  destruct (same_length_incl_NoDup _ (Attributes.requestedIds truthy input) Hnd Hincl) as [Hperm Hreq].
  { unfold Attributes.requestedIds. now rewrite !length_map. }
  repeat (split; [first [reflexivity | assumption]|]). exact Hmember.
Qed.

(** X12: sending the same attribute twice is refused.  When the caller is
    the admin of an organization and the attribute query answers with rows
    of distinct ids among the requested ids, a request in which two
    attributes with a value or options carry the same id is rejected as
    UNAUTHORIZED, "You do not have access to these attributes". *)
Theorem handler_rejects_duplicated_attribute (db : Attributes.Database)
    (input : Attributes.Input.t Value) (org : Attributes.Organization.t) (orgId : Z) :
  Attributes.Organization.id org = Some orgId ->
  orgId <> 0 ->
  Attributes.Organization.isOrgAdmin org = true ->
  List.NoDup (map Attributes.AttributeRow.id
                  (Attributes.attribute_findMany db (Attributes.requestedIds truthy input) orgId)) ->
  incl (map Attributes.AttributeRow.id
            (Attributes.attribute_findMany db (Attributes.requestedIds truthy input) orgId))
       (Attributes.requestedIds truthy input) ->
  ~ List.NoDup (Attributes.requestedIds truthy input) ->
  Attributes.assignUserToAttributeHandler truthy db input org
  = Attributes.Rejected "UNAUTHORIZED" "You do not have access to these attributes".
Proof.
  intros Horg Hnz Hadmin Hnd Hincl Hdup.
  unfold Attributes.assignUserToAttributeHandler, Attributes.isOrgAdminOrThrow.
  rewrite Horg, Hadmin. destruct (Z.eqb_spec orgId 0) as [Hz|_]; [contradiction|].
  simpl. fold (Attributes.requestedIds truthy input).
  destruct (Nat.eqb_spec
              (length (Attributes.attribute_findMany db (Attributes.requestedIds truthy input) orgId))
              (length (Attributes.filteredAttributes truthy input)))
    as [Hlen|_]; [|reflexivity].
  exfalso. apply Hdup.
  apply (same_length_incl_NoDup _ (Attributes.requestedIds truthy input) Hnd Hincl).
  unfold Attributes.requestedIds. now rewrite !length_map.
Qed.

(** X13: the checks look at nothing of the request but the target user and
    the ids of the attributes sent with a value or options: two requests
    that agree on these settle the same way, whatever values and whatever
    option ids they carry. *)
Theorem handler_outcome_depends_on_kept_ids (db : Attributes.Database)
    (input1 input2 : Attributes.Input.t Value) (org : Attributes.Organization.t) :
  Attributes.Input.userId input1 = Attributes.Input.userId input2 ->
  Attributes.requestedIds truthy input1 = Attributes.requestedIds truthy input2 ->
  Attributes.assignUserToAttributeHandler truthy db input1 org
  = Attributes.assignUserToAttributeHandler truthy db input2 org.
Proof.
  intros Huser Hids. unfold Attributes.assignUserToAttributeHandler.
  fold (Attributes.requestedIds truthy input1).
  fold (Attributes.requestedIds truthy input2).
  assert (Hlen : length (Attributes.filteredAttributes truthy input1)
                 = length (Attributes.filteredAttributes truthy input2)).
  { rewrite <- (length_map Attributes.RequestAttribute.id
                           (Attributes.filteredAttributes truthy input1)).
    rewrite <- (length_map Attributes.RequestAttribute.id
                           (Attributes.filteredAttributes truthy input2)).
    fold (Attributes.requestedIds truthy input1).
    fold (Attributes.requestedIds truthy input2). now rewrite Hids. }
  now rewrite Hids, Hlen, Huser.
Qed.
End HandlerFacts.

Lemma handler_resolves_only_when_authorized_witness :
  Attributes.assignUserToAttributeHandler Attributes.textTruthy Attributes.sampleDb
    Attributes.sampleInput Attributes.sampleOrg = Attributes.Resolved tt
  /\ exists orgId membership,
       Attributes.Organization.id Attributes.sampleOrg = Some orgId
       /\ orgId <> 0
       /\ Attributes.Organization.isOrgAdmin Attributes.sampleOrg = true
       /\ List.NoDup (Attributes.requestedIds Attributes.textTruthy Attributes.sampleInput)
       /\ Attributes.membership_findFirst Attributes.sampleDb
            (Attributes.Input.userId Attributes.sampleInput) orgId = Some membership.
Proof.
  assert (Hres : Attributes.assignUserToAttributeHandler Attributes.textTruthy
                   Attributes.sampleDb Attributes.sampleInput Attributes.sampleOrg
                 = Attributes.Resolved tt) by reflexivity.
  split; [exact Hres|].
  destruct (handler_resolves_only_when_authorized Attributes.textTruthy
              Attributes.sampleDb Attributes.sampleInput Attributes.sampleOrg)
    as (orgId & membership & H1 & H2 & H3 & H4 & _ & _ & H7).
  - intros orgId [= <-]. split.
    + vm_compute. repeat constructor; simpl; intuition discriminate.
    + vm_compute. intros x Hx. exact Hx.
  - exact Hres.
  - exists orgId, membership. tauto.
Defined.

Lemma handler_rejects_duplicated_attribute_witness :
  ~ List.NoDup (Attributes.requestedIds Attributes.textTruthy Attributes.duplicatedInput)
  /\ Attributes.assignUserToAttributeHandler Attributes.textTruthy Attributes.sampleDb
       Attributes.duplicatedInput Attributes.sampleOrg
     = Attributes.Rejected "UNAUTHORIZED" "You do not have access to these attributes".
Proof.
  assert (Hdup : ~ List.NoDup (Attributes.requestedIds Attributes.textTruthy
                                 Attributes.duplicatedInput)).
  { vm_compute. intros H. inversion H as [|? ? Hnotin _]; subst.
    apply Hnotin. now left. }
  split; [exact Hdup|].
  apply (handler_rejects_duplicated_attribute Attributes.textTruthy Attributes.sampleDb
           Attributes.duplicatedInput Attributes.sampleOrg 5).
  - reflexivity.
  - discriminate.
  - reflexivity.
  - vm_compute. repeat constructor; simpl; intuition discriminate.
  - vm_compute. intros x [<-|[]]. now left.
  - exact Hdup.
Defined.

Lemma handler_outcome_depends_on_kept_ids_witness :
  Attributes.Input.userId Attributes.sampleInput
  = Attributes.Input.userId Attributes.foreignOptionInput
  /\ Attributes.requestedIds Attributes.textTruthy Attributes.sampleInput
     = Attributes.requestedIds Attributes.textTruthy Attributes.foreignOptionInput
  /\ Attributes.assignUserToAttributeHandler Attributes.textTruthy Attributes.sampleDb
       Attributes.sampleInput Attributes.sampleOrg
     = Attributes.assignUserToAttributeHandler Attributes.textTruthy Attributes.sampleDb
         Attributes.foreignOptionInput Attributes.sampleOrg.
Proof.
  split; [reflexivity|]. split; [reflexivity|].
  exact (handler_outcome_depends_on_kept_ids Attributes.textTruthy Attributes.sampleDb
           Attributes.sampleInput Attributes.foreignOptionInput Attributes.sampleOrg
           eq_refl eq_refl).
Defined.
